(** * The meg firmware: clock, performance counters, sampler, codec, loop

    A shallow embedding of [sketches/meg/meg.ino] (and of the earlier
    [esp32ble/esp32ble.ino] sketch where it differs), with the properties
    its specification states.

    Conventions.  C++ unsigned integers are values of [Z] and every
    operation that can leave the range of its type is followed by the
    wrap-around of that type ([u16], [u32], [u64]).  The target is the
    ESP32: [int] and [unsigned long] are 32 bits wide, so an expression on
    two [uint32_t] operands is evaluated on 32 bits, and objects are laid
    out little-endian. *)

From Stdlib Require Import ZArith List String Lia Bool Sorted.
Import ListNotations.
Local Open Scope Z_scope.

(** ** Fixed-width unsigned arithmetic *)

Definition u8 (x : Z) : Z := x mod 2 ^ 8.
Definition u16 (x : Z) : Z := x mod 2 ^ 16.
Definition u32 (x : Z) : Z := x mod 2 ^ 32.
Definition u64 (x : Z) : Z := x mod 2 ^ 64.

Definition is_u8 (x : Z) : Prop := 0 <= x < 2 ^ 8.
Definition is_u16 (x : Z) : Prop := 0 <= x < 2 ^ 16.
Definition is_u32 (x : Z) : Prop := 0 <= x < 2 ^ 32.
Definition is_u64 (x : Z) : Prop := 0 <= x < 2 ^ 64.

Definition UINT32_MAX : Z := 2 ^ 32 - 1.

(** ** SECTION: 64-bit clock

<<
  static uint32_t g_ClockLastMicros = 0;
  static uint64_t g_ClockAccumulator = 0;
>> *)

Record ClockState : Type := mkClock {
  g_ClockLastMicros : Z;
  g_ClockAccumulator : Z
}.

Definition clock_at_boot : ClockState :=
  {| g_ClockLastMicros := 0; g_ClockAccumulator := 0 |}.

(** The body of [GetClockValue], given what [micros()] returned:
<<
    const uint32_t cur = micros();
    g_ClockAccumulator += cur - g_ClockLastMicros;
    g_ClockLastMicros = cur;
    return g_ClockAccumulator;
>>
    The subtraction is on [uint32_t]; its result is widened and added on
    [uint64_t]. *)
Definition GetClockValue_on (raw : Z) (s : ClockState) : Z * ClockState :=
  let cur := u32 raw in
  let acc := u64 (g_ClockAccumulator s + u32 (cur - g_ClockLastMicros s)) in
  (acc, {| g_ClockLastMicros := cur; g_ClockAccumulator := acc |}).

(** [micros()] is the low 32 bits of the microseconds the hardware has
    counted since boot. *)
Definition micros_of_time (t : Z) : Z := t mod 2 ^ 32.

(** Successive calls of [GetClockValue], one per raw reading; the values
    returned, in call order, and the state left behind. *)
Fixpoint poll_clock (raws : list Z) (s : ClockState) : list Z * ClockState :=
  match raws with
  | [] => ([], s)
  | raw :: rest =>
      let '(v, s1) := GetClockValue_on raw s in
      let '(vs, s2) := poll_clock rest s1 in
      (v :: vs, s2)
  end.

(** Each call happens at or after the one before it and less than one
    wrap period ([2^32] microseconds) later; [t0] is the hardware time of
    the previous call (of boot, for the first). *)
Fixpoint spaced_within_wrap (t0 : Z) (ts : list Z) : Prop :=
  match ts with
  | [] => True
  | t :: rest => (t0 <= t < t0 + 2 ^ 32) /\ spaced_within_wrap t rest
  end.

(** Call times in order, with no bound on the gaps. *)
Fixpoint in_time_order (t0 : Z) (ts : list Z) : Prop :=
  match ts with
  | [] => True
  | t :: rest => t0 <= t /\ in_time_order t rest
  end.

(** The 64-bit accumulator stays below [2^64] on every call. *)
Fixpoint accumulator_in_range (raws : list Z) (s : ClockState) : Prop :=
  match raws with
  | [] => True
  | raw :: rest =>
      g_ClockAccumulator s + u32 (u32 raw - g_ClockLastMicros s) < 2 ^ 64
      /\ accumulator_in_range rest (snd (GetClockValue_on raw s))
  end.

Fixpoint consecutive_differences (prev : Z) (vs : list Z) : list Z :=
  match vs with
  | [] => []
  | v :: rest => (v - prev) :: consecutive_differences v rest
  end.

Definition sumZ (l : list Z) : Z := fold_right Z.add 0 l.

(** ** SECTION: perf

<<
  struct PerfCounter final {
    char const* label;
    uint64_t accumulator = 0;
    uint32_t counter = 0;
  };
>> *)

Record PerfCounter : Type := mkPerfCounter {
  label : string;
  accumulator : Z;
  counter : Z
}.

(** [explicit PerfCounter(char const* label_)] *)
Definition PerfCounter_new (label_ : string) : PerfCounter :=
  {| label := label_; accumulator := 0; counter := 0 |}.

(** [SubmitPerfMeasurement(PerfCounter& counter, uint64_t start, uint64_t end)]:
<<
    counter.accumulator += end - start;
    counter.counter += 1;
>>
    on [uint64_t] and [uint32_t]; the updated counter is returned. *)
Definition SubmitPerfMeasurement (c : PerfCounter) (start end_ : Z) : PerfCounter :=
  {| label := label c;
     accumulator := u64 (accumulator c + u64 (end_ - start));
     counter := u32 (counter c + 1) |}.

(** ** The device around the program

    What the Arduino core, the converter and the board definitions supply:
    the reading each call of [micros()] and of [analogRead(pin)] returns,
    numbered by call, and the pin constants [A1], [A2], [A3]. *)

Record Hardware : Type := mkHardware {
  hw_micros : nat -> Z;
  hw_analogRead : nat -> Z -> Z;
  A1 : Z;
  A2 : Z;
  A3 : Z
}.

(** What the program does to the outside, in order. *)
Inductive Event : Type :=
| EvMicros (reading : Z)
| EvAnalogRead (pin reading : Z)
| EvSerialBegin (baud : Z)
| EvSerialPrint (text : string)
| EvSerialCounterLine (label_ : string) (avgMicros hz : Z)
| EvBLE (call : string)
| EvSetValue (bytes : list Z)
| EvDelay (ms : Z).

Inductive Fault : Type :=
| IntegerDivideByZero
| IndexOutOfRange.

Inductive Outcome (A : Type) : Type :=
| Done (a : A)
| Trapped (f : Fault).

Arguments Done {A} a.
Arguments Trapped {A} f.

Section Runtime.

(** The registry struct differs between the two sketches. *)
Context {Registry : Type}.
Variable hw : Hardware.

Record World : Type := mkWorld {
  g_PerfCounters : Registry;
  g_Clock : ClockState;
  micros_calls : nat;
  analogRead_calls : nat;
  m_DeviceInfoCharacteristic : list Z;
  trace : list Event
}.

(** A computation reads and updates the world; a trap stops it and leaves
    the world as it was when it trapped. *)
Definition M (A : Type) : Type := World -> Outcome A * World.

Definition ret {A} (a : A) : M A := fun w => (Done a, w).

Definition bind {A B} (m : M A) (k : A -> M B) : M B :=
  fun w =>
    match m w with
    | (Done a, w1) => k a w1
    | (Trapped f, w1) => (Trapped f, w1)
    end.

Definition trap {A} (f : Fault) : M A := fun w => (Trapped f, w).

Definition emit (e : Event) : M unit :=
  fun w =>
    (Done tt,
     {| g_PerfCounters := g_PerfCounters w;
        g_Clock := g_Clock w;
        micros_calls := micros_calls w;
        analogRead_calls := analogRead_calls w;
        m_DeviceInfoCharacteristic := m_DeviceInfoCharacteristic w;
        trace := trace w ++ [e] |}).

Definition with_registry (f : Registry -> Registry) : M unit :=
  fun w =>
    (Done tt,
     {| g_PerfCounters := f (g_PerfCounters w);
        g_Clock := g_Clock w;
        micros_calls := micros_calls w;
        analogRead_calls := analogRead_calls w;
        m_DeviceInfoCharacteristic := m_DeviceInfoCharacteristic w;
        trace := trace w |}).

Definition read_registry : M Registry := fun w => (Done (g_PerfCounters w), w).

(** [micros()]: an [unsigned long], 32 bits. *)
Definition micros : M Z :=
  fun w =>
    let v := u32 (hw_micros hw (micros_calls w)) in
    (Done v,
     {| g_PerfCounters := g_PerfCounters w;
        g_Clock := g_Clock w;
        micros_calls := S (micros_calls w);
        analogRead_calls := analogRead_calls w;
        m_DeviceInfoCharacteristic := m_DeviceInfoCharacteristic w;
        trace := trace w ++ [EvMicros v] |}).

(** [uint16_t analogRead(uint8_t pin)] *)
Definition analogRead (pin : Z) : M Z :=
  fun w =>
    let v := u16 (hw_analogRead hw (analogRead_calls w) pin) in
    (Done v,
     {| g_PerfCounters := g_PerfCounters w;
        g_Clock := g_Clock w;
        micros_calls := micros_calls w;
        analogRead_calls := S (analogRead_calls w);
        m_DeviceInfoCharacteristic := m_DeviceInfoCharacteristic w;
        trace := trace w ++ [EvAnalogRead pin v] |}).

(** [delay(ms)] *)
Definition delay (ms : Z) : M unit := emit (EvDelay ms).

(** [uint64_t GetClockValue()] *)
Definition GetClockValue : M Z :=
  bind micros (fun raw w =>
    let '(v, c) := GetClockValue_on raw (g_Clock w) in
    (Done v,
     {| g_PerfCounters := g_PerfCounters w;
        g_Clock := c;
        micros_calls := micros_calls w;
        analogRead_calls := analogRead_calls w;
        m_DeviceInfoCharacteristic := m_DeviceInfoCharacteristic w;
        trace := trace w |})).

(** [#define MEG_DEBUG] is present in both sketches. *)
Definition MEG_DEBUG : bool := true.

(** [MEG_PERF(counter)] at the head of a block, and the block: with
    [MEG_DEBUG] a [BlockScopedPerfMeasurement] lives for the block,
<<
    m_Start{micros()}                                   // constructor
    const uint64_t end = micros();                      // destructor
    SubmitPerfMeasurement(m_Target, m_Start, end);
>>
    and without it the macro expands to nothing.  [target] is the
    [PerfCounter&]: how to update that member of the registry. *)
Definition MEG_PERF {A}
    (target : (PerfCounter -> PerfCounter) -> Registry -> Registry)
    (block : M A) : M A :=
  if MEG_DEBUG then
    bind micros (fun m_Start =>
    bind block (fun result =>
    bind micros (fun end_ =>
    bind (with_registry (target (fun c => SubmitPerfMeasurement c m_Start end_)))
         (fun _ => ret result))))
  else block.

End Runtime.

Arguments World Registry : clear implicits.
Arguments M Registry A : clear implicits.

Declare Scope device_scope.
Delimit Scope device_scope with device.
Notation "x <- c ;; k" := (bind c (fun x => k))
  (at level 61, c at next level, right associativity) : device_scope.
Notation "c ;; k" := (bind c (fun _ => k))
  (at level 61, right associativity) : device_scope.
Local Open Scope device_scope.

(** ** SECTION: data measurement (meg.ino)

<<
    uint64_t time = 0;  // senteniel: default ctor should mean "not measured"
    uint16_t value = 0;
>> *)

Record DataMeasurement : Type := mkDataMeasurement {
  time : Z;
  value : Z
}.

(** [DataMeasurement() = default] *)
Definition DataMeasurement_default : DataMeasurement :=
  {| time := 0; value := 0 |}.

(** [explicit DataMeasurement(uint16_t value_) : time{GetClockValue()}, value{value_}] *)
Definition DataMeasurement_new {Registry} (hw : Hardware) (value_ : Z)
  : M Registry DataMeasurement :=
  t <- GetClockValue hw ;;
  ret {| time := t; value := u16 value_ |}.

(** ** The registry of meg.ino

<<
    PerfCounter allMeasurements{"allMeasurements"};
    PerfCounter singleMeasurement{"singleMeasurement"};
    PerfCounter ble{"ble"};
>> *)

Record PerfCounters : Type := mkPerfCounters {
  allMeasurements : PerfCounter;
  singleMeasurement : PerfCounter;
  ble : PerfCounter
}.

Definition PerfCounters_new : PerfCounters :=
  {| allMeasurements := PerfCounter_new "allMeasurements";
     singleMeasurement := PerfCounter_new "singleMeasurement";
     ble := PerfCounter_new "ble" |}.

(** [size()]: [sizeof(PerfCounters)/sizeof(PerfCounter)] *)
Definition PerfCounters_size : nat := 3.

(** [operator[](size_t i)]: the struct read as an array of its members, in
    declaration order; an index past the end is outside the object. *)
Definition PerfCounters_at (p : PerfCounters) (i : nat) : option PerfCounter :=
  nth_error [allMeasurements p; singleMeasurement p; ble p] i.

(** The members a [PerfCounter&] can name. *)
Inductive CounterRef : Type :=
| RefAllMeasurements
| RefSingleMeasurement
| RefBle.

Definition deref (r : CounterRef) (p : PerfCounters) : PerfCounter :=
  match r with
  | RefAllMeasurements => allMeasurements p
  | RefSingleMeasurement => singleMeasurement p
  | RefBle => ble p
  end.

Definition through (r : CounterRef) (f : PerfCounter -> PerfCounter)
    (p : PerfCounters) : PerfCounters :=
  match r with
  | RefAllMeasurements =>
      {| allMeasurements := f (allMeasurements p);
         singleMeasurement := singleMeasurement p;
         ble := ble p |}
  | RefSingleMeasurement =>
      {| allMeasurements := allMeasurements p;
         singleMeasurement := f (singleMeasurement p);
         ble := ble p |}
  | RefBle =>
      {| allMeasurements := allMeasurements p;
         singleMeasurement := singleMeasurement p;
         ble := f (ble p) |}
  end.

(** Unsigned division; a zero divisor traps. *)
Definition udiv {Registry} (a b : Z) : M Registry Z :=
  if b =? 0 then trap IntegerDivideByZero else ret (a / b).

(** [PrintPerfCounterToSerial(const PerfCounter& counter)]:
<<
    if (counter.counter <= 0)
    {
      return;  // no measurements
    }
    const uint64_t avgMicros = counter.accumulator / counter.counter;
    const uint64_t hz = 1000000 / avgMicros;
    Serial.printf(...counter.label, avgMicros, hz);   // one line: label, avg. micros, hz
>> *)
Definition PrintPerfCounterToSerial {Registry} (c : PerfCounter) : M Registry unit :=
  if counter c <=? 0 then ret tt
  else
    avgMicros <- udiv (accumulator c) (counter c) ;;
    hz <- udiv 1000000 avgMicros ;;
    emit (EvSerialCounterLine (label c) avgMicros hz).

(** [for (size_t i = 0; i < n; ++i) body(i)], with [count] iterations left. *)
Fixpoint for_each_index {Registry} (count i : nat) (body : nat -> M Registry unit)
  : M Registry unit :=
  match count with
  | O => ret tt
  | S count' => body i ;; for_each_index count' (S i) body
  end.

Definition newline : string := String (Ascii.ascii_of_nat 10) EmptyString.
Definition crlf : string :=
  String (Ascii.ascii_of_nat 13) (String (Ascii.ascii_of_nat 10) EmptyString).

(** The heading of the report, ["perf counters:\n"] in the source. *)
Definition report_heading : string := "perf counters:" ++ newline.

(** [Serial.println(text)] *)
Definition Serial_println {Registry} (text : string) : M Registry unit :=
  emit (EvSerialPrint (text ++ crlf)).

(** [PrintAllPerfCountersToSerial()]:
<<
    Serial.print(heading);
    for (size_t i = 0; i < g_PerfCounters.size(); ++i)
    {
      PrintPerfCounterToSerial(g_PerfCounters[i]);
    }
>> *)
Definition PrintAllPerfCountersToSerial : M PerfCounters unit :=
  emit (EvSerialPrint report_heading) ;;
  for_each_index PerfCounters_size 0%nat (fun i =>
    p <- read_registry ;;
    match PerfCounters_at p i with
    | Some c => PrintPerfCounterToSerial c
    | None => trap IndexOutOfRange
    end).

(** [DataMeasurement ReadMeasurement(uint8_t pin)] of meg.ino:
<<
    MEG_PERF(g_PerfCounters.singleMeasurement);
    return DataMeasurement{analogRead(pin)};
>> *)
Definition ReadMeasurement (hw : Hardware) (pin : Z) : M PerfCounters DataMeasurement :=
  MEG_PERF hw (through RefSingleMeasurement)
    (v <- analogRead hw pin ;;
     DataMeasurement_new hw v).

(** ** SECTION: bluetooth/BLE client

<<
    uint16_t v1 = 0;
    uint16_t v2 = 0;
    uint16_t v3 = 0;
>> *)

Record BLEDataMessage : Type := mkBLEDataMessage {
  v1 : Z;
  v2 : Z;
  v3 : Z
}.

(** [BLEDataMessage() = default] *)
Definition BLEDataMessage_default : BLEDataMessage :=
  {| v1 := 0; v2 := 0; v3 := 0 |}.

(** [BLEDataMessage(m1, m2, m3) : v1{m1.value}, v2{m2.value}, v3{m3.value}] *)
Definition BLEDataMessage_new (m1 m2 m3 : DataMeasurement) : BLEDataMessage :=
  {| v1 := value m1; v2 := value m2; v3 := value m3 |}.

(** The two bytes of a [uint16_t], low byte first. *)
Definition le16 (v : Z) : list Z := [v mod 256; (v / 256) mod 256].

(** Modelled from the spec: the bytes a client reads.  The stack's
    [setValue] template, which copies the object's bytes, is not among the
    sources; the specification has the attribute hold the message as
    exactly 6 bytes, no padding, three little-endian 16-bit fields in
    channel order.  That is the object itself on the little-endian ESP32,
    given the source's
    [static_assert(sizeof(BLEDataMessage) == 3*sizeof(uint16_t))]. *)
Definition wire_bytes (m : BLEDataMessage) : list Z :=
  le16 (v1 m) ++ le16 (v2 m) ++ le16 (v3 m).

(** Modelled from the spec: [decode], the client's reading of the 6 bytes
    back into the three channels.  The client is not among the sources;
    the specification makes it the inverse of the encoding, field by field
    in order, 16 bits each, little-endian. *)
Definition decode (bytes : list Z) : option (Z * Z * Z) :=
  match bytes with
  | [a0; a1; b0; b1; c0; c1] =>
      Some (a0 + 256 * a1, b0 + 256 * b1, c0 + 256 * c1)
  | _ => None
  end.

(** [m_DeviceInfoCharacteristic->setValue(m)] *)
Definition setValue {Registry} (m : BLEDataMessage) : M Registry unit :=
  fun w =>
    (Done tt,
     {| g_PerfCounters := g_PerfCounters w;
        g_Clock := g_Clock w;
        micros_calls := micros_calls w;
        analogRead_calls := analogRead_calls w;
        m_DeviceInfoCharacteristic := wire_bytes m;
        trace := trace w ++ [EvSetValue (wire_bytes m)] |}).

(** [void BLEApi::setMeasurementMessage(const BLEDataMessage& m)] *)
Definition setMeasurementMessage {Registry} (m : BLEDataMessage) : M Registry unit :=
  setValue m.

Definition MEG_BLE_LONG_NAME : string := "MegDevice".
Definition MEG_SERIAL_BAUD_RATE : Z := 9600.

(** [BLEApi::BLEApi()]; the calls into the stack are recorded by name. *)
Definition BLEApi_new {Registry} : M Registry unit :=
  (if MEG_DEBUG then Serial_println "begin: initializing BLE device" else ret tt) ;;
  emit (EvBLE "BLEDevice::init") ;;
  emit (EvBLE "BLEDevice::createServer") ;;
  emit (EvBLE "setScanResponse") ;;
  emit (EvBLE "setMinPreferred") ;;
  emit (EvBLE "setMinPreferred") ;;
  emit (EvBLE "createService") ;;
  emit (EvBLE "createCharacteristic") ;;
  setValue BLEDataMessage_default ;;
  emit (EvBLE "start") ;;
  emit (EvBLE "addServiceUUID") ;;
  emit (EvBLE "BLEDevice::startAdvertising") ;;
  (if MEG_DEBUG then Serial_println "end  : initializing BLE device" else ret tt).

(** ** SECTION: top-level ESP32 code

    The body of the [while (true)] of [setup()]:
<<
    meg::DataMeasurement m1;  meg::DataMeasurement m2;  meg::DataMeasurement m3;
    {
      MEG_PERF(meg::g_PerfCounters.allMeasurements);
      m1 = meg::ReadMeasurement(A1);
      m2 = meg::ReadMeasurement(A2);
      m3 = meg::ReadMeasurement(A3);
    }
    {
      MEG_PERF(meg::g_PerfCounters.ble);
      meg::BLEDataMessage message{m1, m2, m3};
      bleApi.setMeasurementMessage(message);
    }
    meg::PrintAllPerfCountersToSerial();
    delay(1000);
>> *)
Definition take_measurements (hw : Hardware)
  : M PerfCounters (DataMeasurement * DataMeasurement * DataMeasurement) :=
  MEG_PERF hw (through RefAllMeasurements)
    (m1 <- ReadMeasurement hw (A1 hw) ;;
     m2 <- ReadMeasurement hw (A2 hw) ;;
     m3 <- ReadMeasurement hw (A3 hw) ;;
     ret (m1, m2, m3)).

Definition update_characteristic (hw : Hardware) (m1 m2 m3 : DataMeasurement)
  : M PerfCounters unit :=
  MEG_PERF hw (through RefBle)
    (setMeasurementMessage (BLEDataMessage_new m1 m2 m3)).

Definition loop_iteration (hw : Hardware) : M PerfCounters unit :=
  ms <- take_measurements hw ;;
  (let '(m1, m2, m3) := ms in update_characteristic hw m1 m2 m3) ;;
  PrintAllPerfCountersToSerial ;;
  delay 1000.

(** [n] turns of the endless loop. *)
Fixpoint loop_iterations (hw : Hardware) (n : nat) : M PerfCounters unit :=
  match n with
  | O => ret tt
  | S n' => loop_iteration hw ;; loop_iterations hw n'
  end.

(** [setup()]: the bring-up, then the loop (cut after [n] turns). *)
Definition setup (hw : Hardware) (n : nat) : M PerfCounters unit :=
  emit (EvSerialBegin MEG_SERIAL_BAUD_RATE) ;;
  BLEApi_new ;;
  loop_iterations hw n.

(** The world when [setup()] is entered. *)
Definition world_at_boot : World PerfCounters :=
  {| g_PerfCounters := PerfCounters_new;
     g_Clock := clock_at_boot;
     micros_calls := 0;
     analogRead_calls := 0;
     m_DeviceInfoCharacteristic := [];
     trace := [] |}.

(** The calls that touch the registry: a submission through one of the
    three references, printing one counter, printing all. *)
Inductive RegistryOp : Type :=
| OpSubmit (target : CounterRef) (start end_ : Z)
| OpPrint (i : nat)
| OpPrintAll.

Definition run_registry_op (op : RegistryOp) : M PerfCounters unit :=
  match op with
  | OpSubmit target start end_ =>
      with_registry (through target (fun c => SubmitPerfMeasurement c start end_))
  | OpPrint i =>
      p <- read_registry ;;
      match PerfCounters_at p i with
      | Some c => PrintPerfCounterToSerial c
      | None => trap IndexOutOfRange
      end
  | OpPrintAll => PrintAllPerfCountersToSerial
  end.

(** ** The earlier sketch, esp32ble.ino (its last part, namespace [meg]) *)

Module Esp32ble.

(** Two counters only:
<<
  PerfCounter allMeasurements{"allMeasurements"};
  PerfCounter singleMeasurement{"singleMeasurement"};
>> *)
Record PerfCounters : Type := mkPerfCounters {
  allMeasurements : PerfCounter;
  singleMeasurement : PerfCounter
}.

Definition PerfCounters_new : PerfCounters :=
  {| allMeasurements := PerfCounter_new "allMeasurements";
     singleMeasurement := PerfCounter_new "singleMeasurement" |}.

Definition through_allMeasurements (f : PerfCounter -> PerfCounter)
    (p : PerfCounters) : PerfCounters :=
  {| allMeasurements := f (allMeasurements p);
     singleMeasurement := singleMeasurement p |}.

Definition through_singleMeasurement (f : PerfCounter -> PerfCounter)
    (p : PerfCounters) : PerfCounters :=
  {| allMeasurements := allMeasurements p;
     singleMeasurement := f (singleMeasurement p) |}.

(** [explicit DataMeasurement(int value_) : time{GetClockValue()}, value{value_}];
    here [value] is an [int]. *)
Definition DataMeasurement_new (hw : Hardware) (value_ : Z)
  : M PerfCounters DataMeasurement :=
  t <- GetClockValue hw ;;
  ret {| time := t; value := value_ |}.

(** [DataMeasurement ReadMeasurement(uint8_t pin)] of esp32ble.ino:
<<
  MEG_PERF(g_PerfCounters.singleMeasurement);
  return DataMeasurement{analogRead(A1)};
>> *)
Definition ReadMeasurement (hw : Hardware) (pin : Z) : M PerfCounters DataMeasurement :=
  MEG_PERF hw through_singleMeasurement
    (v <- analogRead hw (A1 hw) ;;
     DataMeasurement_new hw v).

Definition world_at_boot : World PerfCounters :=
  {| g_PerfCounters := PerfCounters_new;
     g_Clock := clock_at_boot;
     micros_calls := 0;
     analogRead_calls := 0;
     m_DeviceInfoCharacteristic := [];
     trace := [] |}.

End Esp32ble.

(** ** Reading the report off the registry *)

(** A counter that has samples and whose integer average is zero. *)
Definition average_is_zero (c : PerfCounter) : bool :=
  (0 <? counter c) && (accumulator c / counter c =? 0).

(** The line [PrintPerfCounterToSerial] prints for a counter, if any. *)
Definition report_line (c : PerfCounter) : list Event :=
  if counter c <=? 0 then []
  else [EvSerialCounterLine (label c)
          (accumulator c / counter c)
          (1000000 / (accumulator c / counter c))].

Definition members (p : PerfCounters) : list PerfCounter :=
  [allMeasurements p; singleMeasurement p; ble p].

Definition report_lines (p : PerfCounters) : list Event :=
  flat_map report_line (members p).

(** The two instrumented blocks of a loop turn, before the report. *)
Definition measure_and_publish (hw : Hardware) : M PerfCounters unit :=
  ms <- take_measurements hw ;;
  (let '(m1, m2, m3) := ms in update_characteristic hw m1 m2 m3).

(** The reading of [micros()] at its [i]-th call. *)
Definition micros_at (hw : Hardware) (i : nat) : Z := u32 (hw_micros hw i).

(** ** Sample devices and states *)

(** Pins 1, 2, 3 read 111, 222, 333; [micros()] advances 10 per call. *)
Definition bench_hw : Hardware :=
  {| hw_micros := fun i => 10 * Z.of_nat i;
     hw_analogRead := fun _ pin =>
       if pin =? 1 then 111 else if pin =? 2 then 222 else 333;
     A1 := 1; A2 := 2; A3 := 3 |}.

(** The same device, except that the publish block takes less than a
    microsecond: the reading after it (the 13th of a turn) repeats the one
    before it. *)
Definition quick_publish_hw : Hardware :=
  {| hw_micros := fun i =>
       if (12 <=? i)%nat then 10 * (Z.of_nat i - 1) else 10 * Z.of_nat i;
     hw_analogRead := fun _ pin =>
       if pin =? 1 then 111 else if pin =? 2 then 222 else 333;
     A1 := 1; A2 := 2; A3 := 3 |}.

Definition with_counters (p : PerfCounters) : World PerfCounters :=
  {| g_PerfCounters := p;
     g_Clock := clock_at_boot;
     micros_calls := 0;
     analogRead_calls := 0;
     m_DeviceInfoCharacteristic := wire_bytes BLEDataMessage_default;
     trace := [] |}.

(** A counter whose one sample took less than a microsecond. *)
Definition instant_counter : PerfCounter :=
  {| label := "ble"; accumulator := 0; counter := 1 |}.

(** A call every [2^32 - 1] microseconds, [n] of them, from boot. *)
Definition steady_calls (n : nat) : list Z :=
  map (fun k => Z.of_nat k * (2 ^ 32 - 1)) (seq 1 n).

(** [2^32 + 1] such calls bring the hardware to [2^64 - 1] microseconds;
    one more call follows 5 microseconds later. *)
Definition calls_past_64_bits : list Z :=
  steady_calls (Z.to_nat (2 ^ 32 + 1)) ++ [2 ^ 64 + 4].

(** The registry after [2^32 - 1] loop turns: the two per-turn counters
    hold the largest sample count, the per-sample one three times that,
    modulo [2^32]. *)
Definition worn_counters : PerfCounters :=
  {| allMeasurements :=
       {| label := "allMeasurements"; accumulator := 390000000000; counter := 4294967295 |};
     singleMeasurement :=
       {| label := "singleMeasurement"; accumulator := 250000000000; counter := 4294967293 |};
     ble :=
       {| label := "ble"; accumulator := 40000000000; counter := 4294967295 |} |}.

(** ** One loop turn, spelled out

    A turn that starts after [n] calls of [micros()] makes 13 more: call
    [n] opens the block of all measurements and call [n + 10] closes it;
    calls [n + 1], [n + 4], [n + 7] open the three single measurements and
    [n + 3], [n + 6], [n + 9] close them, with the clock's own reading in
    between; calls [n + 11] and [n + 12] bracket the publish block. *)

Definition counters_after_turn (hw : Hardware) (n : nat) (p : PerfCounters)
  : PerfCounters :=
  let t i := micros_at hw (i + n) in
  {| allMeasurements :=
       SubmitPerfMeasurement (allMeasurements p) (t 0%nat) (t 10%nat);
     singleMeasurement :=
       SubmitPerfMeasurement
         (SubmitPerfMeasurement
            (SubmitPerfMeasurement (singleMeasurement p) (t 1%nat) (t 3%nat))
            (t 4%nat) (t 6%nat))
         (t 7%nat) (t 9%nat);
     ble := SubmitPerfMeasurement (ble p) (t 11%nat) (t 12%nat) |}.

Definition clock_readings_of_turn (hw : Hardware) (n : nat) : list Z :=
  [micros_at hw (2 + n); micros_at hw (5 + n); micros_at hw (8 + n)].

(** The events of the two instrumented blocks, for converter readings
    [r1], [r2], [r3]. *)
Definition events_of_turn (hw : Hardware) (n : nat) (r1 r2 r3 : Z) : list Event :=
  let t i := micros_at hw (i + n) in
  [EvMicros (t 0%nat);
   EvMicros (t 1%nat); EvAnalogRead (A1 hw) r1; EvMicros (t 2%nat); EvMicros (t 3%nat);
   EvMicros (t 4%nat); EvAnalogRead (A2 hw) r2; EvMicros (t 5%nat); EvMicros (t 6%nat);
   EvMicros (t 7%nat); EvAnalogRead (A3 hw) r3; EvMicros (t 8%nat); EvMicros (t 9%nat);
   EvMicros (t 10%nat);
   EvMicros (t 11%nat);
   EvSetValue (wire_bytes {| v1 := r1; v2 := r2; v3 := r3 |});
   EvMicros (t 12%nat)].

(** ** Registry calls within range *)

Definition CounterRef_eqb (a b : CounterRef) : bool :=
  match a, b with
  | RefAllMeasurements, RefAllMeasurements => true
  | RefSingleMeasurement, RefSingleMeasurement => true
  | RefBle, RefBle => true
  | _, _ => false
  end.

(** A submission whose interval is not reversed and whose target has room
    left in both of its fields. *)
Definition submission_fits (op : RegistryOp) (p : PerfCounters) : Prop :=
  match op with
  | OpSubmit target start end_ =>
      start <= end_
      /\ 0 <= accumulator (deref target p)
      /\ accumulator (deref target p) + (end_ - start) < 2 ^ 64
      /\ 0 <= counter (deref target p) < UINT32_MAX
  | OpPrint _ | OpPrintAll => True
  end.

(** What a call does to the counter behind [r], in plain arithmetic. *)
Definition grown_by (op : RegistryOp) (r : CounterRef) (c : PerfCounter) : PerfCounter :=
  match op with
  | OpSubmit target start end_ =>
      if CounterRef_eqb target r then
        {| label := label c;
           accumulator := accumulator c + (end_ - start);
           counter := counter c + 1 |}
      else c
  | OpPrint _ | OpPrintAll => c
  end.

(** A run of such calls, one after the other; a trap ends the run. *)
Fixpoint run_registry_ops (ops : list RegistryOp) (w : World PerfCounters)
  : World PerfCounters :=
  match ops with
  | [] => w
  | op :: rest =>
      match run_registry_op op w with
      | (Done _, w1) => run_registry_ops rest w1
      | (Trapped _, w1) => w1
      end
  end.

(** Every submission of the run fits, in the state it is made in. *)
Fixpoint submissions_fit (ops : list RegistryOp) (w : World PerfCounters) : Prop :=
  match ops with
  | [] => True
  | op :: rest =>
      submission_fits op (g_PerfCounters w)
      /\ match run_registry_op op w with
         | (Done _, w1) => submissions_fit rest w1
         | (Trapped _, _) => True
         end
  end.

(** A computation that leaves some part of the world as it found it,
    whether it completes or traps. *)
Definition keeps {Registry A X : Type} (part : World Registry -> X)
    (m : M Registry A) : Prop :=
  forall w, part (snd (m w)) = part w.

(** ** Further code of the two sketches *)

(** Several scoped measurements submitted to one counter, each given by
    its start and end reading. *)
Fixpoint submit_all (c : PerfCounter) (intervals : list (Z * Z)) : PerfCounter :=
  match intervals with
  | [] => c
  | (start, end_) :: rest => submit_all (SubmitPerfMeasurement c start end_) rest
  end.

Definition durations (intervals : list (Z * Z)) : list Z :=
  map (fun se => snd se - fst se) intervals.

(** The lines of a report up to the first counter whose average is zero. *)
Fixpoint lines_before_trap (cs : list PerfCounter) : list Event :=
  match cs with
  | [] => []
  | c :: rest =>
      if average_is_zero c then []
      else report_line c ++ lines_before_trap rest
  end.

(** The attribute holds an encoded message. *)
Definition holds_a_message (bytes : list Z) : Prop :=
  exists m : BLEDataMessage, bytes = wire_bytes m.

(** [::analogRead(pin)], the converter itself, under the name the first
    sketch of esp32ble.ino calls it by. *)
Definition base_analogRead {Registry} (hw : Hardware) (pin : Z) : M Registry Z :=
  analogRead hw pin.

(** ** esp32ble.ino, first sketch (namespace [ak])

    [printf_calls_line label calls avg] below stands for what [Serial.printf]
    makes of the format of [PrintPerfCounterToSerial] and its three
    arguments; the text itself is the Arduino core's business. *)

Module Ak.

(** The registry:
<<
    PerfCounter analogRead{"analogRead"};
    PerfCounter allReads{"allReads"};
>>
    The first member is [analogReadCounter] here, [analogRead] being the
    function below. *)
Record PerfCounters : Type := mkPerfCounters {
  analogReadCounter : PerfCounter;
  allReads : PerfCounter
}.

Definition PerfCounters_new : PerfCounters :=
  {| analogReadCounter := PerfCounter_new "analogRead";
     allReads := PerfCounter_new "allReads" |}.

(** [size()] *)
Definition PerfCounters_size : nat := 2.

(** [operator[](size_t i)] *)
Definition PerfCounters_at (p : PerfCounters) (i : nat) : option PerfCounter :=
  nth_error [analogReadCounter p; allReads p] i.

Definition through_analogRead (f : PerfCounter -> PerfCounter)
    (p : PerfCounters) : PerfCounters :=
  {| analogReadCounter := f (analogReadCounter p);
     allReads := allReads p |}.

Definition through_allReads (f : PerfCounter -> PerfCounter)
    (p : PerfCounters) : PerfCounters :=
  {| analogReadCounter := analogReadCounter p;
     allReads := f (allReads p) |}.

(** [PrintPerfCounterToSerial(const PerfCounter& counter)] of this sketch:
<<
    if (counter.counter <= 0)
    {
      return;  // no measurements
    }
    const uint64_t avg = counter.accumulator / counter.counter;
    Serial.printf(..., counter.label, counter.counter, avg);
>> *)
Definition PrintPerfCounterToSerial {Registry}
    (printf_calls_line : string -> Z -> Z -> string) (c : PerfCounter)
  : M Registry unit :=
  if counter c <=? 0 then ret tt
  else
    avg <- udiv (accumulator c) (counter c) ;;
    emit (EvSerialPrint (printf_calls_line (label c) (counter c) avg)).

(** [PrintAllPerfCountersToSerial()] *)
Definition PrintAllPerfCountersToSerial
    (printf_calls_line : string -> Z -> Z -> string) : M PerfCounters unit :=
  emit (EvSerialPrint report_heading) ;;
  for_each_index PerfCounters_size 0%nat (fun i =>
    p <- read_registry ;;
    match PerfCounters_at p i with
    | Some c => PrintPerfCounterToSerial printf_calls_line c
    | None => trap IndexOutOfRange
    end).

(** [AK_PERF(counter)]: the same macro under another name; [AK_DEBUG] is
    defined. *)
Definition AK_PERF {A} (hw : Hardware)
    (target : (PerfCounter -> PerfCounter) -> PerfCounters -> PerfCounters)
    (block : M PerfCounters A) : M PerfCounters A :=
  MEG_PERF hw target block.

(** [uint16_t ak::analogRead(uint8_t pin)]:
<<
    AK_PERF(g_PerfCounters.analogRead);
    return ::analogRead(pin);  // call base version
>> *)
Definition analogRead (hw : Hardware) (pin : Z) : M PerfCounters Z :=
  AK_PERF hw through_analogRead (base_analogRead hw pin).

(** [setup()] *)
Definition setup : M PerfCounters unit := emit (EvSerialBegin 9600).

(** [loop()]:
<<
  {
    AK_PERF(ak::g_PerfCounters.allReads);
    const int a1Val = ak::analogRead(A1);
    const int a2Val = ak::analogRead(A2);
    const int a3Val = ak::analogRead(A3);
  }
  ak::PrintAllPerfCountersToSerial();
>> *)
Definition loop (hw : Hardware)
    (printf_calls_line : string -> Z -> Z -> string) : M PerfCounters unit :=
  AK_PERF hw through_allReads
    (a1Val <- analogRead hw (A1 hw) ;;
     a2Val <- analogRead hw (A2 hw) ;;
     a3Val <- analogRead hw (A3 hw) ;;
     ret tt) ;;
  PrintAllPerfCountersToSerial printf_calls_line.

(** The line this sketch prints for a counter, if any. *)
Definition report_line (printf_calls_line : string -> Z -> Z -> string)
    (c : PerfCounter) : list Event :=
  if counter c <=? 0 then []
  else [EvSerialPrint
          (printf_calls_line (label c) (counter c) (accumulator c / counter c))].

(** The registry after a turn of [loop()] that starts after [n] calls of
    [micros()]: calls [n] and [n + 7] bracket the three reads, and each
    read is bracketed by two calls of its own. *)
Definition counters_after_loop (hw : Hardware) (n : nat) (p : PerfCounters)
  : PerfCounters :=
  let t i := micros_at hw (i + n) in
  {| analogReadCounter :=
       SubmitPerfMeasurement
         (SubmitPerfMeasurement
            (SubmitPerfMeasurement (analogReadCounter p) (t 1%nat) (t 2%nat))
            (t 3%nat) (t 4%nat))
         (t 5%nat) (t 6%nat);
     allReads := SubmitPerfMeasurement (allReads p) (t 0%nat) (t 7%nat) |}.

End Ak.

(** ** esp32ble.ino, last sketch: the loop of [setup()]

<<
  while (true)
  {
    // do performance-counted work
    MEG_PERF(meg::g_PerfCounters.allMeasurements);
    meg::DataMeasurement m1 = meg::ReadMeasurement(A1);
    meg::DataMeasurement m2 = meg::ReadMeasurement(A1);
    meg::DataMeasurement m3 = meg::ReadMeasurement(A1);
  }
>>
    The measurement object lives to the end of the loop body; the three
    measurements are locals that nothing reads. *)

Module Esp32bleLoop.

Definition loop_iteration (hw : Hardware) : M Esp32ble.PerfCounters unit :=
  MEG_PERF hw Esp32ble.through_allMeasurements
    (m1 <- Esp32ble.ReadMeasurement hw (A1 hw) ;;
     m2 <- Esp32ble.ReadMeasurement hw (A1 hw) ;;
     m3 <- Esp32ble.ReadMeasurement hw (A1 hw) ;;
     ret tt).

Fixpoint loop_iterations (hw : Hardware) (n : nat) : M Esp32ble.PerfCounters unit :=
  match n with
  | O => ret tt
  | S n' => loop_iteration hw ;; loop_iterations hw n'
  end.

(** The registry after a turn that starts after [n] calls of [micros()]. *)
Definition counters_after_turn (hw : Hardware) (n : nat) (p : Esp32ble.PerfCounters)
  : Esp32ble.PerfCounters :=
  let t i := micros_at hw (i + n) in
  {| Esp32ble.allMeasurements :=
       SubmitPerfMeasurement (Esp32ble.allMeasurements p) (t 0%nat) (t 10%nat);
     Esp32ble.singleMeasurement :=
       SubmitPerfMeasurement
         (SubmitPerfMeasurement
            (SubmitPerfMeasurement (Esp32ble.singleMeasurement p) (t 1%nat) (t 3%nat))
            (t 4%nat) (t 6%nat))
         (t 7%nat) (t 9%nat) |}.

End Esp32bleLoop.

(** An event of that loop: a reading of the timer, or of the converter on
    pin [A1]. *)
Definition timer_or_A1 (hw : Hardware) (e : Event) : Prop :=
  match e with
  | EvMicros _ => True
  | EvAnalogRead pin _ => pin = A1 hw
  | _ => False
  end.

(** Events are appended one at a time; bring the trace to the form
    [earlier ++ [e1; e2; ...]]. *)
Ltac flatten_trace := repeat (rewrite <- app_assoc; cbn [app]).

(** * Properties *)

(** ** Arithmetic facts *)

Lemma u32_range x : is_u32 (u32 x).
Proof. unfold is_u32, u32. apply Z.mod_pos_bound. lia. Qed.

Lemma u64_range x : is_u64 (u64 x).
Proof. unfold is_u64, u64. apply Z.mod_pos_bound. lia. Qed.

Lemma u16_range x : is_u16 (u16 x).
Proof. unfold is_u16, u16. apply Z.mod_pos_bound. lia. Qed.

Lemma u32_small x : is_u32 x -> u32 x = x.
Proof. unfold is_u32, u32. intros. apply Z.mod_small. lia. Qed.

Lemma u64_small x : is_u64 x -> u64 x = x.
Proof. unfold is_u64, u64. intros. apply Z.mod_small. lia. Qed.

Lemma u16_small x : is_u16 x -> u16 x = x.
Proof. unfold is_u16, u16. intros. apply Z.mod_small. lia. Qed.

(** Unsigned 32-bit subtraction of two readings of the wrapping counter
    gives the true distance when that distance is below one period. *)
Lemma wrapped_delta t0 t :
  t0 <= t < t0 + 2 ^ 32 ->
  u32 (u32 (micros_of_time t) - micros_of_time t0) = t - t0.
Proof.
  intros H. unfold u32, micros_of_time.
  rewrite (Z.mod_mod t) by lia.
  rewrite <- Zminus_mod.
  apply Z.mod_small. lia.
Qed.

(** With no bound on the distance the same subtraction never exceeds it. *)
Lemma wrapped_delta_le t0 t :
  t0 <= t ->
  u32 (u32 (micros_of_time t) - micros_of_time t0) <= t - t0.
Proof.
  intros H. unfold u32, micros_of_time.
  rewrite (Z.mod_mod t) by lia.
  rewrite <- Zminus_mod.
  apply Z.mod_le; lia.
Qed.

Lemma poll_clock_cons raw rest s :
  poll_clock (raw :: rest) s =
  (fst (GetClockValue_on raw s) :: fst (poll_clock rest (snd (GetClockValue_on raw s))),
   snd (poll_clock rest (snd (GetClockValue_on raw s)))).
Proof.
  simpl. destruct (poll_clock rest _) as [vs s2]. reflexivity.
Qed.

Lemma last_nonempty_default (v : Z) rest d d' :
  last (v :: rest) d = last (v :: rest) d'.
Proof.
  revert v. induction rest as [|w rest IH]; intros v; [reflexivity|].
  change (last (w :: rest) d = last (w :: rest) d'). apply IH.
Qed.

Lemma last_cons_prev (v : Z) rest d :
  last (v :: rest) d = last rest v.
Proof.
  destruct rest as [|w rest]; [reflexivity|].
  change (last (w :: rest) d = last (w :: rest) v).
  apply last_nonempty_default.
Qed.

Lemma last_map_Z (f : Z -> Z) l d :
  last (map f l) (f d) = f (last l d).
Proof.
  revert d. induction l as [|a l IH]; intros d; [reflexivity|].
  cbn [map]. rewrite !last_cons_prev. apply IH.
Qed.

Lemma sum_consecutive_differences vs prev :
  sumZ (consecutive_differences prev vs) = last vs prev - prev.
Proof.
  revert prev. induction vs as [|v rest IH]; intros prev.
  - simpl. lia.
  - change (sumZ (consecutive_differences prev (v :: rest)))
      with ((v - prev) + sumZ (consecutive_differences v rest)).
    rewrite IH, last_cons_prev. lia.
Qed.

(** ** The clock *)

Lemma spaced_last_ge ts : forall t0,
  spaced_within_wrap t0 ts -> t0 <= last ts t0.
Proof.
  induction ts as [|t rest IH]; intros t0 H.
  - simpl. lia.
  - destruct H as [Ht Hrest]. rewrite last_cons_prev.
    specialize (IH t Hrest). lia.
Qed.

Lemma in_time_order_last_ge ts : forall t0,
  in_time_order t0 ts -> t0 <= last ts t0.
Proof.
  induction ts as [|t rest IH]; intros t0 H.
  - simpl. lia.
  - destruct H as [Ht Hrest]. rewrite last_cons_prev.
    specialize (IH t Hrest). lia.
Qed.

Lemma u32_micros_of_time t : u32 (micros_of_time t) = micros_of_time t.
Proof. unfold u32, micros_of_time. apply Z.mod_mod. lia. Qed.

(** One call, when the unwrapped sum fits: the accumulator grows by the
    32-bit delta. *)
Lemma GetClockValue_on_in_range raw s :
  0 <= g_ClockAccumulator s ->
  g_ClockAccumulator s + u32 (u32 raw - g_ClockLastMicros s) < 2 ^ 64 ->
  GetClockValue_on raw s =
  (g_ClockAccumulator s + u32 (u32 raw - g_ClockLastMicros s),
   {| g_ClockLastMicros := u32 raw;
      g_ClockAccumulator :=
        g_ClockAccumulator s + u32 (u32 raw - g_ClockLastMicros s) |}).
Proof.
  intros Hacc Hfit. unfold GetClockValue_on.
  pose proof (u32_range (u32 raw - g_ClockLastMicros s)) as Hd.
  unfold is_u32 in Hd.
  rewrite u64_small by (unfold is_u64; lia).
  reflexivity.
Qed.

(** Polled within a wrap period, the clock returns the accumulator it
    started from plus the hardware time gone by since. *)
Lemma poll_clock_exact ts : forall t0 s,
  g_ClockLastMicros s = micros_of_time t0 ->
  0 <= g_ClockAccumulator s ->
  spaced_within_wrap t0 ts ->
  g_ClockAccumulator s + (last ts t0 - t0) < 2 ^ 64 ->
  fst (poll_clock (map micros_of_time ts) s) =
  map (fun t => g_ClockAccumulator s + (t - t0)) ts.
Proof.
  induction ts as [|t rest IH]; intros t0 s Hlast Hacc Hsp Hfit.
  - reflexivity.
  - destruct Hsp as [Ht Hrest].
    rewrite last_cons_prev in Hfit.
    pose proof (spaced_last_ge rest t Hrest) as Hge.
    change (map micros_of_time (t :: rest))
      with (micros_of_time t :: map micros_of_time rest).
    rewrite poll_clock_cons.
    assert (Hd : u32 (u32 (micros_of_time t) - g_ClockLastMicros s) = t - t0)
      by (rewrite Hlast; apply wrapped_delta; exact Ht).
    rewrite GetClockValue_on_in_range by (rewrite ?Hd; lia).
    rewrite Hd. cbn [fst snd map].
    f_equal.
    rewrite (IH t); cbn [g_ClockLastMicros g_ClockAccumulator].
    + apply map_ext. intros a. lia.
    + apply u32_micros_of_time.
    + lia.
    + exact Hrest.
    + lia.
Qed.

Lemma sorted_offsets ts : forall acc t0,
  in_time_order t0 ts ->
  Sorted Z.le (acc :: map (fun t => acc + (t - t0)) ts).
Proof.
  induction ts as [|t rest IH]; intros acc t0 H.
  - simpl. repeat constructor.
  - destruct H as [Ht Hrest]. cbn [map].
    constructor.
    + specialize (IH (acc + (t - t0)) t Hrest).
      replace (map (fun t1 => acc + (t1 - t0)) rest)
        with (map (fun t1 => (acc + (t - t0)) + (t1 - t)) rest)
        by (apply map_ext; intros; lia).
      exact IH.
    + constructor. lia.
Qed.

Lemma spaced_in_time_order ts : forall t0,
  spaced_within_wrap t0 ts -> in_time_order t0 ts.
Proof.
  induction ts as [|t rest IH]; intros t0 H; [exact I|].
  destruct H as [Ht Hrest]. split; [lia | auto].
Qed.

(** Without a bound on the gaps, and while the accumulator fits, the
    values returned are in nondecreasing order. *)
Lemma poll_clock_sorted raws : forall s,
  0 <= g_ClockAccumulator s ->
  accumulator_in_range raws s ->
  Sorted Z.le (g_ClockAccumulator s :: fst (poll_clock raws s)).
Proof.
  induction raws as [|raw rest IH]; intros s Hacc Hfit.
  - simpl. repeat constructor.
  - destruct Hfit as [Hfit Hrest].
    rewrite poll_clock_cons.
    pose proof (u32_range (u32 raw - g_ClockLastMicros s)) as Hd.
    unfold is_u32 in Hd.
    rewrite GetClockValue_on_in_range in * by assumption.
    cbn [fst snd] in *.
    constructor.
    + match goal with
      | |- context [poll_clock rest ?st] => specialize (IH st)
      end.
      cbn [g_ClockAccumulator] in IH. apply IH; [lia | exact Hrest].
    + constructor. lia.
Qed.

(** Whatever the gaps, the clock never runs ahead of the hardware. *)
Lemma poll_clock_undercounts ts : forall t0 s,
  g_ClockLastMicros s = micros_of_time t0 ->
  0 <= g_ClockAccumulator s ->
  in_time_order t0 ts ->
  accumulator_in_range (map micros_of_time ts) s ->
  last (fst (poll_clock (map micros_of_time ts) s)) (g_ClockAccumulator s)
    - g_ClockAccumulator s <= last ts t0 - t0.
Proof.
  induction ts as [|t rest IH]; intros t0 s Hlast Hacc Hord Hfit.
  - simpl. lia.
  - destruct Hord as [Ht Hrest].
    change (map micros_of_time (t :: rest))
      with (micros_of_time t :: map micros_of_time rest) in *.
    destruct Hfit as [Hfit Hfit'].
    rewrite poll_clock_cons.
    pose proof (u32_range (u32 (micros_of_time t) - g_ClockLastMicros s)) as Hd.
    unfold is_u32 in Hd.
    assert (Hle : u32 (u32 (micros_of_time t) - g_ClockLastMicros s) <= t - t0)
      by (rewrite Hlast; apply wrapped_delta_le; exact Ht).
    rewrite GetClockValue_on_in_range in * by assumption.
    cbn [fst snd] in *.
    rewrite !last_cons_prev.
    match goal with
    | |- context [poll_clock _ ?st] => specialize (IH t st)
    end.
    cbn [g_ClockLastMicros g_ClockAccumulator] in IH.
    specialize (IH (u32_micros_of_time t) ltac:(lia) Hrest Hfit'). lia.
Qed.

(** C1.  Calls of [GetClockValue] that follow one another by less than one
    wrap period of the 32-bit counter ([2^32] microseconds), starting from
    a clock last polled at hardware time [t0] (boot is [t0 = 0] with both
    globals zero) and ending while the elapsed time still fits the 64-bit
    accumulator: the values returned never decrease, the differences of
    consecutive returned values add up to the hardware time elapsed, wraps
    of the 32-bit counter included, and each returned value is the starting
    accumulator plus the time gone by. *)
Theorem GetClockValue_polled_within_wrap_tracks_time :
  forall (s : ClockState) (t0 : Z) (ts : list Z),
    g_ClockLastMicros s = micros_of_time t0 ->
    0 <= g_ClockAccumulator s ->
    spaced_within_wrap t0 ts ->
    g_ClockAccumulator s + (last ts t0 - t0) < 2 ^ 64 ->
    let vs := fst (poll_clock (map micros_of_time ts) s) in
    Sorted Z.le (g_ClockAccumulator s :: vs)
    /\ sumZ (consecutive_differences (g_ClockAccumulator s) vs) = last ts t0 - t0
    /\ vs = map (fun t => g_ClockAccumulator s + (t - t0)) ts.
Proof.
  intros s t0 ts Hlast Hacc Hsp Hfit vs.
  assert (Hvs : vs = map (fun t => g_ClockAccumulator s + (t - t0)) ts)
    by (apply poll_clock_exact; assumption).
  split; [|split].
  - rewrite Hvs.
    apply sorted_offsets, spaced_in_time_order, Hsp.
  - rewrite sum_consecutive_differences, Hvs.
    pose proof (last_map_Z (fun t => g_ClockAccumulator s + (t - t0)) ts t0) as Hl.
    cbv beta in Hl.
    replace (g_ClockAccumulator s + (t0 - t0)) with (g_ClockAccumulator s) in Hl by lia.
    rewrite Hl. lia.
  - exact Hvs.
Qed.

(** Three calls from boot, the second one after the 32-bit counter has
    wrapped. *)
Lemma GetClockValue_polled_within_wrap_witness :
  let vs := fst (poll_clock (map micros_of_time [4294967000; 4294967400; 8000000000])
                            clock_at_boot) in
  Sorted Z.le (0 :: vs)
  /\ sumZ (consecutive_differences 0 vs) = 8000000000 - 0
  /\ vs = map (fun t => 0 + (t - 0)) [4294967000; 4294967400; 8000000000].
Proof.
  apply (GetClockValue_polled_within_wrap_tracks_time
           clock_at_boot 0 [4294967000; 4294967400; 8000000000]).
  - reflexivity.
  - simpl. lia.
  - simpl. lia.
  - simpl. lia.
Defined.

(** C10.  With no condition on how far apart the calls are, and so however
    many times the 32-bit counter wraps between them, every value
    [GetClockValue] returns is at least the one before it, as long as the
    64-bit accumulator stays below [2^64]: each call adds a 32-bit delta
    that is never negative.  Against the hardware time of the calls the
    result can only fall short, never run ahead. *)
Theorem GetClockValue_never_decreases :
  forall (s : ClockState) (raws : list Z),
    0 <= g_ClockAccumulator s ->
    accumulator_in_range raws s ->
    let vs := fst (poll_clock raws s) in
    Sorted Z.le (g_ClockAccumulator s :: vs)
    /\ (forall t0 ts,
          raws = map micros_of_time ts ->
          g_ClockLastMicros s = micros_of_time t0 ->
          in_time_order t0 ts ->
          last vs (g_ClockAccumulator s) - g_ClockAccumulator s <= last ts t0 - t0).
Proof.
  intros s raws Hacc Hfit vs. split.
  - apply poll_clock_sorted; assumption.
  - intros t0 ts Hraws Hlast Hord. subst vs raws.
    apply poll_clock_undercounts; assumption.
Qed.

(** Two calls from boot more than two wrap periods apart. *)
Lemma GetClockValue_never_decreases_witness :
  let vs := fst (poll_clock (map micros_of_time [100; 100 + 2 * 2 ^ 32 + 7]) clock_at_boot) in
  Sorted Z.le (0 :: vs)
  /\ (forall t0 ts,
        map micros_of_time [100; 100 + 2 * 2 ^ 32 + 7] = map micros_of_time ts ->
        0 = micros_of_time t0 ->
        in_time_order t0 ts ->
        last vs 0 - 0 <= last ts t0 - t0).
Proof.
  apply (GetClockValue_never_decreases clock_at_boot
           (map micros_of_time [100; 100 + 2 * 2 ^ 32 + 7])).
  - simpl. lia.
  - vm_compute. repeat split.
Defined.

(** What those two calls return: the second falls short of the hardware
    time by the two missed wraps. *)
Example GetClockValue_two_wraps_apart :
  fst (poll_clock (map micros_of_time [100; 100 + 2 * 2 ^ 32 + 7]) clock_at_boot)
  = [100; 107].
Proof. reflexivity. Qed.

(** ** The codec *)

Lemma le16_recombine v :
  v mod 256 + 256 * ((v / 256) mod 256) = u16 v.
Proof.
  unfold u16. change (2 ^ 16) with (256 * 256).
  rewrite Z.rem_mul_r by lia. reflexivity.
Qed.

Lemma le16_of_u16 v :
  is_u16 v -> le16 v = [v mod 256; v / 256].
Proof.
  unfold is_u16, le16. intros H. f_equal. f_equal.
  apply Z.mod_small. split.
  - apply Z.div_pos; lia.
  - apply Z.div_lt_upper_bound; lia.
Qed.

Lemma le16_bytes v : Forall is_u8 (le16 v).
Proof.
  unfold le16, is_u8. repeat constructor;
    try (apply Z.mod_pos_bound; lia).
  all: apply Z.mod_pos_bound; lia.
Qed.

(** Splitting what two bytes combine to gives the two bytes back. *)
Lemma le16_combine lo hi :
  is_u8 lo -> is_u8 hi -> le16 (lo + 256 * hi) = [lo; hi].
Proof.
  unfold is_u8, le16. intros Hlo Hhi.
  change (2 ^ 8) with 256 in *.
  assert (Hq : (lo + 256 * hi) / 256 = hi).
  { rewrite Z.mul_comm, Z.div_add by lia.
    rewrite Z.div_small by lia. lia. }
  assert (Hr : (lo + 256 * hi) mod 256 = lo).
  { rewrite Z.mul_comm, Z.mod_add by lia.
    apply Z.mod_small. lia. }
  rewrite Hq, Hr. f_equal. f_equal. apply Z.mod_small. lia.
Qed.

Lemma combine_is_u16 lo hi :
  is_u8 lo -> is_u8 hi -> is_u16 (lo + 256 * hi).
Proof. unfold is_u8, is_u16. lia. Qed.

Lemma decode_le16 a b c :
  is_u16 a -> is_u16 b -> is_u16 c ->
  decode (le16 a ++ le16 b ++ le16 c) = Some (a, b, c).
Proof.
  intros Ha Hb Hc.
  pose proof (le16_recombine a) as Ea.
  pose proof (le16_recombine b) as Eb.
  pose proof (le16_recombine c) as Ec.
  rewrite u16_small in Ea, Eb, Ec by assumption.
  unfold le16. cbn [app decode].
  rewrite Ea, Eb, Ec. reflexivity.
Qed.

(** C2.  [BLEDataMessage(m1, m2, m3)] has [v1 = m1.value], [v2 = m2.value],
    [v3 = m3.value] and nothing of the measurements' times; on the wire it
    is exactly 6 bytes, each field's low byte then its high byte, the
    fields in channel order; values 100, 200, 300 give
    [100 0 200 0 44 1]. *)
Theorem BLEDataMessage_new_wire_format :
  forall m1 m2 m3 : DataMeasurement,
    let m := BLEDataMessage_new m1 m2 m3 in
    (v1 m = value m1 /\ v2 m = value m2 /\ v3 m = value m3)
    /\ (forall t1 t2 t3,
          BLEDataMessage_new {| time := t1; value := value m1 |}
                             {| time := t2; value := value m2 |}
                             {| time := t3; value := value m3 |} = m)
    /\ List.length (wire_bytes m) = 6%nat
    /\ Forall is_u8 (wire_bytes m)
    /\ wire_bytes m =
         [value m1 mod 256; (value m1 / 256) mod 256;
          value m2 mod 256; (value m2 / 256) mod 256;
          value m3 mod 256; (value m3 / 256) mod 256]
    /\ (value m1 mod 256 + 256 * ((value m1 / 256) mod 256) = u16 (value m1)
        /\ value m2 mod 256 + 256 * ((value m2 / 256) mod 256) = u16 (value m2)
        /\ value m3 mod 256 + 256 * ((value m3 / 256) mod 256) = u16 (value m3))
    /\ (forall t1 t2 t3,
          wire_bytes (BLEDataMessage_new {| time := t1; value := 100 |}
                                          {| time := t2; value := 200 |}
                                          {| time := t3; value := 300 |})
          = [100; 0; 200; 0; 44; 1]).
Proof.
  intros m1 m2 m3 m. subst m.
  split; [repeat split|].
  split; [reflexivity|].
  split; [reflexivity|].
  split.
  { unfold wire_bytes. rewrite !Forall_app. repeat split; apply le16_bytes. }
  split; [reflexivity|].
  split.
  { repeat split; apply le16_recombine. }
  reflexivity.
Qed.

(** C7.  [decode] undoes the encoding and the encoding undoes [decode]:
    for measurements whose values are unsigned 16-bit numbers, decoding
    the bytes of their message returns those three values, in order; and
    for any 6 bytes, [decode] returns three unsigned 16-bit numbers whose
    message, built from any measurements carrying them, is those 6 bytes
    again. *)
Theorem decode_inverts_the_encoding :
  forall (m1 m2 m3 : DataMeasurement) (b : list Z),
    is_u16 (value m1) -> is_u16 (value m2) -> is_u16 (value m3) ->
    List.length b = 6%nat -> Forall is_u8 b ->
    decode (wire_bytes (BLEDataMessage_new m1 m2 m3))
      = Some (value m1, value m2, value m3)
    /\ exists c1 c2 c3,
         decode b = Some (c1, c2, c3)
         /\ is_u16 c1 /\ is_u16 c2 /\ is_u16 c3
         /\ forall n1 n2 n3 : DataMeasurement,
              value n1 = c1 -> value n2 = c2 -> value n3 = c3 ->
              wire_bytes (BLEDataMessage_new n1 n2 n3) = b.
Proof.
  intros m1 m2 m3 b H1 H2 H3 Hlen Hb. split.
  - unfold wire_bytes, BLEDataMessage_new. cbn [v1 v2 v3].
    apply decode_le16; assumption.
  - destruct b as [|a0 [|a1 [|b0 [|b1 [|c0 [|c1 [|x rest]]]]]]];
      try discriminate Hlen.
    repeat match goal with
           | H : Forall _ (_ :: _) |- _ => inversion H; clear H; subst
           end.
    exists (a0 + 256 * a1), (b0 + 256 * b1), (c0 + 256 * c1).
    split; [reflexivity|].
    repeat split; try (apply combine_is_u16; assumption).
    intros n1 n2 n3 E1 E2 E3.
    unfold wire_bytes, BLEDataMessage_new. cbn [v1 v2 v3].
    rewrite E1, E2, E3, !le16_combine by assumption.
    reflexivity.
Qed.

(** The specification's example, and six arbitrary bytes. *)
Lemma decode_inverts_the_encoding_witness :
  decode (wire_bytes (BLEDataMessage_new {| time := 7; value := 100 |}
                                          {| time := 8; value := 200 |}
                                          {| time := 9; value := 300 |}))
    = Some (100, 200, 300)
  /\ exists c1 c2 c3,
       decode [1; 2; 3; 4; 255; 255] = Some (c1, c2, c3)
       /\ is_u16 c1 /\ is_u16 c2 /\ is_u16 c3
       /\ forall n1 n2 n3 : DataMeasurement,
            value n1 = c1 -> value n2 = c2 -> value n3 = c3 ->
            wire_bytes (BLEDataMessage_new n1 n2 n3) = [1; 2; 3; 4; 255; 255].
Proof.
  apply (decode_inverts_the_encoding
           {| time := 7; value := 100 |}
           {| time := 8; value := 200 |}
           {| time := 9; value := 300 |}
           [1; 2; 3; 4; 255; 255]).
  - unfold is_u16. simpl. lia.
  - unfold is_u16. simpl. lia.
  - unfold is_u16. simpl. lia.
  - reflexivity.
  - unfold is_u8. repeat constructor; lia.
Defined.

(** ** The performance counters *)

Lemma keeps_ret {R A X} (part : World R -> X) (a : A) : keeps part (ret a).
Proof. intros w. reflexivity. Qed.

Lemma keeps_trap {R A X} (part : World R -> X) (f : Fault) :
  keeps part (@trap R A f).
Proof. intros w. reflexivity. Qed.

Lemma keeps_bind {R A B X} (part : World R -> X) (m : M R A) (k : A -> M R B) :
  keeps part m -> (forall a, keeps part (k a)) -> keeps part (bind m k).
Proof.
  intros Hm Hk w. unfold bind.
  specialize (Hm w). destruct (m w) as [[a|f] w1]; cbn [snd] in *.
  - rewrite Hk. exact Hm.
  - exact Hm.
Qed.

Lemma keeps_udiv {R X} (part : World R -> X) a b : keeps part (@udiv R a b).
Proof.
  unfold udiv. destruct (b =? 0); [apply keeps_trap | apply keeps_ret].
Qed.

Lemma PrintPerfCounterToSerial_keeps {R X} (part : World R -> X) c :
  (forall e, keeps part (emit e)) ->
  keeps part (@PrintPerfCounterToSerial R c).
Proof.
  intros He. unfold PrintPerfCounterToSerial.
  destruct (counter c <=? 0); [apply keeps_ret|].
  apply keeps_bind; [apply keeps_udiv|]. intros avg.
  apply keeps_bind; [apply keeps_udiv|]. intros hz.
  apply He.
Qed.

Lemma for_each_index_keeps {R X} (part : World R -> X) body count : forall i,
  (forall j, keeps part (body j)) ->
  keeps part (@for_each_index R count i body).
Proof.
  induction count as [|count IH]; intros i Hbody; cbn [for_each_index].
  - apply keeps_ret.
  - apply keeps_bind; [apply Hbody|]. intros _. apply IH, Hbody.
Qed.

Lemma print_at_keeps {X} (part : World PerfCounters -> X) i :
  (forall e, keeps part (emit e)) ->
  keeps part
    (p <- read_registry ;;
     match PerfCounters_at p i with
     | Some c => PrintPerfCounterToSerial c
     | None => trap IndexOutOfRange
     end).
Proof.
  intros He. apply keeps_bind; [intros w; reflexivity|]. intros p.
  destruct (PerfCounters_at p i);
    [apply PrintPerfCounterToSerial_keeps, He | apply keeps_trap].
Qed.

Lemma PrintAllPerfCountersToSerial_keeps {X} (part : World PerfCounters -> X) :
  (forall e, keeps part (emit e)) ->
  keeps part PrintAllPerfCountersToSerial.
Proof.
  intros He. unfold PrintAllPerfCountersToSerial.
  apply keeps_bind; [apply He|]. intros _.
  apply for_each_index_keeps. intros j. apply print_at_keeps, He.
Qed.

Lemma emit_keeps_registry {R} e : keeps (@g_PerfCounters R) (emit e).
Proof. intros w. reflexivity. Qed.

Lemma emit_keeps_characteristic {R} e :
  keeps (@m_DeviceInfoCharacteristic R) (emit e).
Proof. intros w. reflexivity. Qed.

(** Within range, a submission adds exactly the interval and exactly one
    sample. *)
Lemma SubmitPerfMeasurement_in_range c start end_ :
  start <= end_ ->
  0 <= accumulator c ->
  accumulator c + (end_ - start) < 2 ^ 64 ->
  0 <= counter c < UINT32_MAX ->
  SubmitPerfMeasurement c start end_ =
  {| label := label c;
     accumulator := accumulator c + (end_ - start);
     counter := counter c + 1 |}.
Proof.
  unfold UINT32_MAX. intros Hse Hacc Hfit Hcnt. unfold SubmitPerfMeasurement.
  rewrite (u64_small (end_ - start)) by (unfold is_u64; lia).
  rewrite u64_small by (unfold is_u64; lia).
  rewrite u32_small by (unfold is_u32; lia).
  reflexivity.
Qed.

Lemma PrintPerfCounterToSerial_no_measurements {R} (c : PerfCounter) (w : World R) :
  counter c <= 0 -> PrintPerfCounterToSerial c w = (Done tt, w).
Proof.
  intros H. unfold PrintPerfCounterToSerial.
  destruct (Z.leb_spec (counter c) 0); [reflexivity | lia].
Qed.

Lemma PrintPerfCounterToSerial_line {R} (c : PerfCounter) (w : World R) :
  average_is_zero c = false ->
  PrintPerfCounterToSerial c w =
  (Done tt,
   {| g_PerfCounters := g_PerfCounters w;
      g_Clock := g_Clock w;
      micros_calls := micros_calls w;
      analogRead_calls := analogRead_calls w;
      m_DeviceInfoCharacteristic := m_DeviceInfoCharacteristic w;
      trace := trace w ++ report_line c |}).
Proof.
  unfold average_is_zero, PrintPerfCounterToSerial, report_line.
  intros H.
  destruct (Z.leb_spec (counter c) 0) as [Hle|Hgt].
  - rewrite app_nil_r. destruct w; reflexivity.
  - destruct (Z.ltb_spec 0 (counter c)); [|lia].
    cbn [andb] in H.
    unfold bind, udiv.
    destruct (Z.eqb_spec (counter c) 0); [lia|].
    cbn [ret]. rewrite H. reflexivity.
Qed.

Lemma PrintPerfCounterToSerial_zero_average {R} (c : PerfCounter) (w : World R) :
  average_is_zero c = true ->
  PrintPerfCounterToSerial c w = (Trapped IntegerDivideByZero, w).
Proof.
  unfold average_is_zero, PrintPerfCounterToSerial.
  intros H. apply andb_prop in H. destruct H as [Hpos Hzero].
  apply Z.ltb_lt in Hpos.
  destruct (Z.leb_spec (counter c) 0); [lia|].
  unfold bind, udiv.
  destruct (Z.eqb_spec (counter c) 0); [lia|].
  cbn [ret]. rewrite Hzero. reflexivity.
Qed.

(** C9.  Specified: printing a counter never divides by zero.  The guard
    covers the first division only: for the counter with one sample
    of zero microseconds, the sample count 1 passes the guard,
    [avgMicros = 0 / 1 = 0], and [1000000 / avgMicros] divides by zero. *)
Theorem PrintPerfCounterToSerial_divides_by_zero :
  forall w : World PerfCounters,
    counter instant_counter = 1
    /\ accumulator instant_counter / counter instant_counter = 0
    /\ PrintPerfCounterToSerial instant_counter w
       = (Trapped IntegerDivideByZero, w).
Proof.
  intros w. repeat split.
Qed.

(** C5.  Specified: one report line for every counter that has samples.
    On the device whose timer gives the same reading before and after the
    publish block, the first loop turn from boot leaves [ble] with one
    sample and a zero sum; the report prints the heading and the lines of
    the first two counters and then divides by zero: no line for [ble]. *)
Theorem PrintAllPerfCountersToSerial_drops_a_line :
  let w := snd (measure_and_publish quick_publish_hw world_at_boot) in
  ble (g_PerfCounters w) = instant_counter
  /\ fst (PrintAllPerfCountersToSerial w) = Trapped IntegerDivideByZero
  /\ trace (snd (PrintAllPerfCountersToSerial w)) =
       trace w ++
       [EvSerialPrint report_heading;
        EvSerialCounterLine "allMeasurements" 100 10000;
        EvSerialCounterLine "singleMeasurement" 20 50000].
Proof.
  vm_compute. repeat split.
Qed.

(** The counter a submission is aimed at is the only one it changes. *)
Lemma deref_through r target f p :
  deref r (through target f p) =
  if CounterRef_eqb target r then f (deref r p) else deref r p.
Proof. destruct r, target; reflexivity. Qed.

Lemma run_registry_op_registry op w :
  g_PerfCounters (snd (run_registry_op op w)) =
  match op with
  | OpSubmit target start end_ =>
      through target (fun c => SubmitPerfMeasurement c start end_) (g_PerfCounters w)
  | OpPrint _ | OpPrintAll => g_PerfCounters w
  end.
Proof.
  destruct op as [target start end_|i|]; cbn [run_registry_op].
  - reflexivity.
  - apply (print_at_keeps (@g_PerfCounters PerfCounters)), emit_keeps_registry.
  - apply PrintAllPerfCountersToSerial_keeps, emit_keeps_registry.
Qed.

(** One call: printing changes no counter; a submission that fits adds
    exactly the interval and one sample to its target and leaves the other
    counters alone. *)
Lemma registry_call_grows_counter op (w : World PerfCounters) r :
  submission_fits op (g_PerfCounters w) ->
  let c := deref r (g_PerfCounters w) in
  let c' := deref r (g_PerfCounters (snd (run_registry_op op w))) in
  c' = grown_by op r c
  /\ label c' = label c
  /\ accumulator c <= accumulator c'
  /\ counter c <= counter c'.
Proof.
  intros Hfit c c'. subst c c'.
  rewrite run_registry_op_registry.
  destruct op as [target start end_|i|]; cbn [grown_by submission_fits] in *.
  - rewrite deref_through.
    destruct (CounterRef_eqb target r) eqn:E.
    + assert (target = r) by (destruct target, r; try discriminate E; reflexivity).
      subst target. destruct Hfit as (Hse & Hacc & Hsum & Hcnt).
      rewrite SubmitPerfMeasurement_in_range by assumption.
      cbn [label accumulator counter]. repeat split; try reflexivity; lia.
    + repeat split; try reflexivity; lia.
  - repeat split; try reflexivity; lia.
  - repeat split; try reflexivity; lia.
Qed.

(** C6, as the code has it.  The calls that touch the registry are the
    submissions and the two printing functions.  Over any run of them in
    which every submission has its interval the right way round
    ([start <= end]) and finds room in its target (the sum stays below
    [2^64], the sample count is below [2^32 - 1]): every counter keeps its
    label, and neither its accumulator nor its sample count is ever lower
    after the run than before it.  For a single call: printing changes no
    counter, and a submission adds exactly [end - start] to its target's
    accumulator and exactly one to its sample count, and changes no other
    counter. *)
Theorem registry_calls_only_grow_counters :
  forall (ops : list RegistryOp) (w : World PerfCounters) (r : CounterRef),
    submissions_fit ops w ->
    let c := deref r (g_PerfCounters w) in
    let c' := deref r (g_PerfCounters (run_registry_ops ops w)) in
    label c' = label c
    /\ accumulator c <= accumulator c'
    /\ counter c <= counter c'
    /\ match ops with
       | [op] => c' = grown_by op r c
       | _ => True
       end.
Proof.
  intros ops w r Hfit. cbv zeta.
  assert (Hmono : label (deref r (g_PerfCounters (run_registry_ops ops w)))
                    = label (deref r (g_PerfCounters w))
                  /\ accumulator (deref r (g_PerfCounters w))
                     <= accumulator (deref r (g_PerfCounters (run_registry_ops ops w)))
                  /\ counter (deref r (g_PerfCounters w))
                     <= counter (deref r (g_PerfCounters (run_registry_ops ops w)))).
  { revert w Hfit. induction ops as [|op rest IH]; intros w Hfit.
    - cbn [run_registry_ops]. repeat split; lia.
    - destruct Hfit as [Hop Hrest].
      pose proof (registry_call_grows_counter op w r Hop) as Hstep.
      cbv zeta in Hstep. destruct Hstep as (_ & Hl & Ha & Hc).
      cbn [run_registry_ops].
      destruct (run_registry_op op w) as [[u|f] w1]; cbn [snd] in *.
      + destruct (IH w1 Hrest) as (Hl' & Ha' & Hc').
        repeat split; [congruence | lia | lia].
      + repeat split; assumption. }
  destruct Hmono as (Hl & Ha & Hc).
  repeat split; try assumption.
  destruct ops as [|op [|op' rest]]; try exact I.
  destruct Hfit as [Hop _].
  pose proof (registry_call_grows_counter op w r Hop) as Hstep.
  cbv zeta in Hstep. destruct Hstep as (Hg & _).
  cbn [run_registry_ops].
  destruct (run_registry_op op w) as [[u|f] w1]; cbn [snd] in *; exact Hg.
Qed.

(** Two samples submitted to a fresh registry, and a report in between. *)
Lemma registry_calls_only_grow_counters_witness :
  let ops := [OpSubmit RefSingleMeasurement 100 130; OpPrintAll;
              OpSubmit RefSingleMeasurement 200 250] in
  let c := deref RefSingleMeasurement (g_PerfCounters world_at_boot) in
  let c' := deref RefSingleMeasurement
              (g_PerfCounters (run_registry_ops ops world_at_boot)) in
  label c' = label c
  /\ accumulator c <= accumulator c'
  /\ counter c <= counter c'
  /\ True.
Proof.
  apply (registry_calls_only_grow_counters
           [OpSubmit RefSingleMeasurement 100 130; OpPrintAll;
            OpSubmit RefSingleMeasurement 200 250]
           world_at_boot RefSingleMeasurement).
  vm_compute. repeat split; discriminate.
Defined.

(** What that run leaves in the counter. *)
Example two_samples_submitted :
  deref RefSingleMeasurement
    (g_PerfCounters
       (run_registry_ops
          [OpSubmit RefSingleMeasurement 100 130; OpPrintAll;
           OpSubmit RefSingleMeasurement 200 250]
          world_at_boot))
  = {| label := "singleMeasurement"; accumulator := 80; counter := 2 |}.
Proof. reflexivity. Qed.

(** Against C6 as specified.  A submission to a counter whose
    sample count is [2^32 - 1] sets the count back to 0; and one whose two
    readings of [micros()] lie on either side of the 32-bit wrap
    ([end < start]) adds [end - start] modulo [2^64], which lowers an
    accumulator that is at least [start - end]. *)
Lemma SubmitPerfMeasurement_resets_and_decreases :
  (let c := {| label := "ble"; accumulator := 5000; counter := 4294967295 |} in
   let p := {| allMeasurements := PerfCounter_new "allMeasurements";
               singleMeasurement := PerfCounter_new "singleMeasurement";
               ble := c |} in
   counter (ble (g_PerfCounters
                   (snd (run_registry_op (OpSubmit RefBle 100 110) (with_counters p)))))
   = 0)
  /\
  (let c := {| label := "ble"; accumulator := 5000000000; counter := 7 |} in
   let p := {| allMeasurements := PerfCounter_new "allMeasurements";
               singleMeasurement := PerfCounter_new "singleMeasurement";
               ble := c |} in
   accumulator (ble (g_PerfCounters
                   (snd (run_registry_op (OpSubmit RefBle 4294967290 4) (with_counters p)))))
   = 705032714
   /\ 705032714 < accumulator c).
Proof.
  vm_compute. repeat split.
Qed.

(** ** The clock at the end of its range *)

Lemma poll_clock_app l1 l2 s :
  poll_clock (l1 ++ l2) s =
  (fst (poll_clock l1 s) ++ fst (poll_clock l2 (snd (poll_clock l1 s))),
   snd (poll_clock l2 (snd (poll_clock l1 s)))).
Proof.
  revert s. induction l1 as [|raw l1 IH]; intros s.
  - cbn [app poll_clock fst snd]. destruct (poll_clock l2 s); reflexivity.
  - change ((raw :: l1) ++ l2) with (raw :: (l1 ++ l2)).
    rewrite !poll_clock_cons, IH. reflexivity.
Qed.

(** The state that polling within a wrap period leaves behind. *)
Lemma poll_clock_exact_state ts : forall t0 s,
  g_ClockLastMicros s = micros_of_time t0 ->
  0 <= g_ClockAccumulator s ->
  spaced_within_wrap t0 ts ->
  g_ClockAccumulator s + (last ts t0 - t0) < 2 ^ 64 ->
  snd (poll_clock (map micros_of_time ts) s) =
  {| g_ClockLastMicros := micros_of_time (last ts t0);
     g_ClockAccumulator := g_ClockAccumulator s + (last ts t0 - t0) |}.
Proof.
  induction ts as [|t rest IH]; intros t0 s Hlast Hacc Hsp Hfit.
  - cbn [map poll_clock snd last]. destruct s as [l a]. cbn in *.
    subst l. f_equal. lia.
  - destruct Hsp as [Ht Hrest].
    rewrite last_cons_prev in *.
    pose proof (spaced_last_ge rest t Hrest) as Hge.
    change (map micros_of_time (t :: rest))
      with (micros_of_time t :: map micros_of_time rest).
    rewrite poll_clock_cons. cbn [snd].
    assert (Hd : u32 (u32 (micros_of_time t) - g_ClockLastMicros s) = t - t0)
      by (rewrite Hlast; apply wrapped_delta; exact Ht).
    rewrite GetClockValue_on_in_range by (rewrite ?Hd; lia).
    rewrite Hd. cbn [snd].
    rewrite (IH t); cbn [g_ClockLastMicros g_ClockAccumulator].
    + f_equal. lia.
    + apply u32_micros_of_time.
    + lia.
    + exact Hrest.
    + lia.
Qed.

Lemma steady_calls_spaced n : forall k,
  spaced_within_wrap (Z.of_nat k * (2 ^ 32 - 1))
    (map (fun j => Z.of_nat j * (2 ^ 32 - 1)) (seq (S k) n)).
Proof.
  induction n as [|n IH]; intros k; [exact I|].
  cbn [seq map spaced_within_wrap]. split; [|apply IH].
  rewrite Nat2Z.inj_succ. lia.
Qed.

Lemma steady_calls_last n : forall k,
  last (map (fun j => Z.of_nat j * (2 ^ 32 - 1)) (seq (S k) n))
       (Z.of_nat k * (2 ^ 32 - 1))
  = Z.of_nat (k + n) * (2 ^ 32 - 1).
Proof.
  induction n as [|n IH]; intros k.
  - cbn [seq map last]. rewrite Nat.add_0_r. reflexivity.
  - cbn [seq map]. rewrite last_cons_prev, IH.
    f_equal. lia.
Qed.

Lemma spaced_within_wrap_app l1 : forall t0 l2,
  spaced_within_wrap t0 l1 ->
  spaced_within_wrap (last l1 t0) l2 ->
  spaced_within_wrap t0 (l1 ++ l2).
Proof.
  induction l1 as [|t l1 IH]; intros t0 l2 H1 H2.
  - exact H2.
  - destruct H1 as [Ht H1]. rewrite last_cons_prev in H2.
    cbn [app spaced_within_wrap]. split; [exact Ht | apply IH; assumption].
Qed.

Lemma sorted_before_last l : forall x y,
  Sorted Z.le (l ++ [x]) -> In y l -> y <= x.
Proof.
  intros x y Hs Hin.
  apply Sorted_StronglySorted in Hs; [|intros a b c; apply Z.le_trans].
  induction l as [|a l IH]; [contradiction|].
  cbn [app] in Hs. inversion Hs as [|a' l' Hl Hall]; subst.
  destruct Hin as [->|Hin].
  - rewrite Forall_forall in Hall. apply Hall, in_or_app. right. left. reflexivity.
  - apply IH; assumption.
Qed.

Lemma last_in_nonempty (a : Z) l d : In (last (a :: l) d) (a :: l).
Proof.
  revert a. induction l as [|b l IH]; intros a.
  - left. reflexivity.
  - right. change (In (last (b :: l) d) (b :: l)). apply IH.
Qed.

(** Against C1 as specified, at the end of the accumulator's range.
    Polled from boot every [2^32 - 1] microseconds, [2^32 + 1] times, and
    once more 5 microseconds later, every gap is below the wrap period and
    the values returned are not in nondecreasing order: the state before
    the last call has the accumulator at [2^64 - 1], and the last call
    returns 4. *)
Lemma GetClockValue_wraps_at_64_bits :
  spaced_within_wrap 0 calls_past_64_bits
  /\ ~ Sorted Z.le (fst (poll_clock (map micros_of_time calls_past_64_bits) clock_at_boot))
  /\ snd (poll_clock (map micros_of_time (steady_calls (Z.to_nat (2 ^ 32 + 1)))) clock_at_boot)
     = {| g_ClockLastMicros := 4294967295; g_ClockAccumulator := 18446744073709551615 |}
  /\ GetClockValue_on (micros_of_time (2 ^ 64 + 4))
       {| g_ClockLastMicros := 4294967295; g_ClockAccumulator := 18446744073709551615 |}
     = (4, {| g_ClockLastMicros := 4; g_ClockAccumulator := 4 |}).
Proof.
  unfold calls_past_64_bits, steady_calls.
  remember (Z.to_nat (2 ^ 32 + 1)) as n eqn:En.
  assert (Hn : Z.of_nat n = 2 ^ 32 + 1) by (subst n; apply Z2Nat.id; lia).
  clear En.
  pose proof (steady_calls_spaced n 0) as Hsp.
  pose proof (steady_calls_last n 0) as Hlast.
  change (Z.of_nat 0 * (2 ^ 32 - 1)) with 0 in Hsp, Hlast.
  rewrite Nat.add_0_l, Hn in Hlast.
  set (ts := map (fun j => Z.of_nat j * (2 ^ 32 - 1)) (seq 1 n)) in *.
  assert (Hst : snd (poll_clock (map micros_of_time ts) clock_at_boot)
                = {| g_ClockLastMicros := 4294967295;
                     g_ClockAccumulator := 18446744073709551615 |}).
  { rewrite (poll_clock_exact_state ts 0); cbn [clock_at_boot g_ClockLastMicros g_ClockAccumulator].
    - rewrite Hlast. reflexivity.
    - reflexivity.
    - lia.
    - exact Hsp.
    - rewrite Hlast. lia. }
  split; [|split; [|split]].
  - apply spaced_within_wrap_app; [exact Hsp|].
    rewrite Hlast. cbn [spaced_within_wrap]. lia.
  - rewrite map_app, poll_clock_app, Hst. cbn [fst].
    rewrite (poll_clock_exact ts 0);
      cbn [clock_at_boot g_ClockLastMicros g_ClockAccumulator];
      [ | reflexivity | lia | exact Hsp | rewrite Hlast; lia ].
    change (fst (poll_clock (map micros_of_time [2 ^ 64 + 4])
                   {| g_ClockLastMicros := 4294967295;
                      g_ClockAccumulator := 18446744073709551615 |}))
      with [4].
    intros Hs.
    assert (Hin : In (0 + (last ts 0 - 0)) (map (fun t => 0 + (t - 0)) ts)).
    { apply (in_map (fun t => 0 + (t - 0)) ts (last ts 0)).
      subst ts. destruct n as [|n]; [discriminate Hn|].
      cbn [seq map]. apply last_in_nonempty. }
    pose proof (sorted_before_last _ _ _ Hs Hin) as Hle.
    rewrite Hlast in Hle. lia.
  - exact Hst.
  - reflexivity.
Qed.

(** ** The sampler *)


Lemma u16_idem x : u16 (u16 x) = u16 x.
Proof. unfold u16. apply Z.mod_mod. lia. Qed.

(** What one call of meg.ino's [ReadMeasurement] does: the counter's
    start reading, the converter's reading of [pin], the clock's reading
    (which stamps the measurement), the counter's end reading, and the
    submission to [singleMeasurement]. *)
Lemma ReadMeasurement_run hw pin (w : World PerfCounters) :
  let n := micros_calls w in
  let reading := u16 (hw_analogRead hw (analogRead_calls w) pin) in
  let now := GetClockValue_on (micros_at hw (S n)) (g_Clock w) in
  ReadMeasurement hw pin w =
  (Done {| time := fst now; value := reading |},
   {| g_PerfCounters :=
        through RefSingleMeasurement
          (fun c => SubmitPerfMeasurement c (micros_at hw n) (micros_at hw (S (S n))))
          (g_PerfCounters w);
      g_Clock := snd now;
      micros_calls := S (S (S n));
      analogRead_calls := S (analogRead_calls w);
      m_DeviceInfoCharacteristic := m_DeviceInfoCharacteristic w;
      trace := trace w ++
        [EvMicros (micros_at hw n);
         EvAnalogRead pin reading;
         EvMicros (micros_at hw (S n));
         EvMicros (micros_at hw (S (S n)))] |}).
Proof.
  destruct w as [p c n k a tr].
  cbv beta zeta.
  cbn [micros_calls analogRead_calls g_Clock g_PerfCounters
       m_DeviceInfoCharacteristic trace].
  unfold ReadMeasurement, MEG_PERF, MEG_DEBUG, DataMeasurement_new,
    GetClockValue, bind, micros, analogRead, with_registry, ret.
  cbn [micros_calls analogRead_calls g_Clock g_PerfCounters
       m_DeviceInfoCharacteristic trace fst snd].
  unfold GetClockValue_on, micros_at.
  cbn [micros_calls analogRead_calls g_Clock g_PerfCounters
       m_DeviceInfoCharacteristic trace fst snd].
  rewrite u16_idem. flatten_trace.
  reflexivity.
Qed.

(** C4.  Specified: [ReadMeasurement(pin)] returns the converter's
    reading of the channel it is given.  meg.ino's does (lemma
    [ReadMeasurement_run]); the one in esp32ble.ino calls [analogRead(A1)]
    whatever [pin] is: asked for [A2], which reads 222 on this device, it
    returns 111, the reading of [A1]. *)
Theorem Esp32ble_ReadMeasurement_reads_A1 :
  u16 (hw_analogRead bench_hw 0 (A2 bench_hw)) = 222
  /\ fst (Esp32ble.ReadMeasurement bench_hw (A2 bench_hw) Esp32ble.world_at_boot)
     = Done {| time := 10; value := 111 |}
  /\ fst (ReadMeasurement bench_hw (A2 bench_hw) world_at_boot)
     = Done {| time := 10; value := 222 |}.
Proof.
  vm_compute. repeat split.
Qed.

(** In esp32ble.ino the argument plays no part at all. *)
Lemma Esp32ble_ReadMeasurement_ignores_pin hw pin pin' w :
  Esp32ble.ReadMeasurement hw pin w = Esp32ble.ReadMeasurement hw pin' w.
Proof. reflexivity. Qed.

(** ** The loop *)

Lemma bind_assoc {R A B C} (m : M R A) (f : A -> M R B) (g : B -> M R C) w :
  bind (bind m f) g w = bind m (fun a => bind (f a) g) w.
Proof.
  unfold bind. destruct (m w) as [[a|fault] w1]; reflexivity.
Qed.

Lemma loop_iteration_split hw w :
  loop_iteration hw w =
  (measure_and_publish hw ;; PrintAllPerfCountersToSerial ;; delay 1000) w.
Proof.
  unfold loop_iteration, measure_and_publish.
  rewrite bind_assoc. reflexivity.
Qed.

(** The two instrumented blocks always run to their end. *)
Lemma measure_and_publish_run hw (w : World PerfCounters) :
  let n := micros_calls w in
  let k := analogRead_calls w in
  let r1 := u16 (hw_analogRead hw k (A1 hw)) in
  let r2 := u16 (hw_analogRead hw (S k) (A2 hw)) in
  let r3 := u16 (hw_analogRead hw (S (S k)) (A3 hw)) in
  measure_and_publish hw w =
  (Done tt,
   {| g_PerfCounters := counters_after_turn hw n (g_PerfCounters w);
      g_Clock := snd (poll_clock (clock_readings_of_turn hw n) (g_Clock w));
      micros_calls := 13 + n;
      analogRead_calls := 3 + k;
      m_DeviceInfoCharacteristic := wire_bytes {| v1 := r1; v2 := r2; v3 := r3 |};
      trace := trace w ++ events_of_turn hw n r1 r2 r3 |}).
Proof.
  destruct w as [[pa ps pb] c n k a tr].
  cbv beta zeta.
  unfold measure_and_publish, take_measurements, update_characteristic,
    setMeasurementMessage, setValue, MEG_PERF, MEG_DEBUG.
  cbv beta iota.
  unfold bind at 1 2.
  unfold micros at 1.
  cbn [micros_calls analogRead_calls g_Clock g_PerfCounters
       m_DeviceInfoCharacteristic trace fst snd].
  unfold bind at 1 2.
  rewrite ReadMeasurement_run.
  cbn [micros_calls analogRead_calls g_Clock g_PerfCounters
       m_DeviceInfoCharacteristic trace fst snd].
  unfold bind at 1.
  rewrite ReadMeasurement_run.
  cbn [micros_calls analogRead_calls g_Clock g_PerfCounters
       m_DeviceInfoCharacteristic trace fst snd].
  unfold bind at 1.
  rewrite ReadMeasurement_run.
  cbn [micros_calls analogRead_calls g_Clock g_PerfCounters
       m_DeviceInfoCharacteristic trace fst snd].
  unfold bind, micros, with_registry, ret.
  cbn [micros_calls analogRead_calls g_Clock g_PerfCounters
       m_DeviceInfoCharacteristic trace fst snd through].
  unfold counters_after_turn, clock_readings_of_turn, events_of_turn,
    BLEDataMessage_new.
  rewrite !poll_clock_cons.
  cbn [poll_clock fst snd value Nat.add
       allMeasurements singleMeasurement ble].
  flatten_trace.
  reflexivity.
Qed.

(** When no counter with samples has a zero average, the report is the
    heading and one line for each counter that has samples, in
    declaration order. *)
Lemma PrintAllPerfCountersToSerial_run (w : World PerfCounters) :
  existsb average_is_zero (members (g_PerfCounters w)) = false ->
  PrintAllPerfCountersToSerial w =
  (Done tt,
   {| g_PerfCounters := g_PerfCounters w;
      g_Clock := g_Clock w;
      micros_calls := micros_calls w;
      analogRead_calls := analogRead_calls w;
      m_DeviceInfoCharacteristic := m_DeviceInfoCharacteristic w;
      trace := trace w ++
        [EvSerialPrint report_heading] ++ report_lines (g_PerfCounters w) |}).
Proof.
  destruct w as [[pa ps pb] c n k a tr].
  cbn [g_PerfCounters g_Clock micros_calls analogRead_calls
       m_DeviceInfoCharacteristic trace members existsb
       allMeasurements singleMeasurement ble].
  intros H.
  apply orb_false_elim in H. destruct H as [Ha H].
  apply orb_false_elim in H. destruct H as [Hs H].
  apply orb_false_elim in H. destruct H as [Hb _].
  unfold PrintAllPerfCountersToSerial, PerfCounters_size.
  cbn [for_each_index].
  unfold bind at 1. unfold emit at 1.
  cbn [g_PerfCounters g_Clock micros_calls analogRead_calls
       m_DeviceInfoCharacteristic trace].
  unfold bind at 1. unfold bind at 1. unfold read_registry at 1.
  cbn [g_PerfCounters PerfCounters_at nth_error
       allMeasurements singleMeasurement ble].
  rewrite (PrintPerfCounterToSerial_line pa) by exact Ha.
  cbn [g_PerfCounters g_Clock micros_calls analogRead_calls
       m_DeviceInfoCharacteristic trace].
  unfold bind at 1. unfold bind at 1. unfold read_registry at 1.
  cbn [g_PerfCounters PerfCounters_at nth_error
       allMeasurements singleMeasurement ble].
  rewrite (PrintPerfCounterToSerial_line ps) by exact Hs.
  cbn [g_PerfCounters g_Clock micros_calls analogRead_calls
       m_DeviceInfoCharacteristic trace].
  unfold bind at 1. unfold bind at 1. unfold read_registry at 1.
  cbn [g_PerfCounters PerfCounters_at nth_error
       allMeasurements singleMeasurement ble].
  rewrite (PrintPerfCounterToSerial_line pb) by exact Hb.
  cbn [g_PerfCounters g_Clock micros_calls analogRead_calls
       m_DeviceInfoCharacteristic trace ret].
  unfold report_lines, members.
  cbn [flat_map allMeasurements singleMeasurement ble].
  rewrite app_nil_r, <- !app_assoc. reflexivity.
Qed.

(** Whether or not the report goes through, a loop turn leaves the
    attribute holding the bytes of the three readings and the registry as
    the two instrumented blocks left it. *)
Lemma loop_iteration_publishes hw (w : World PerfCounters) :
  let k := analogRead_calls w in
  m_DeviceInfoCharacteristic (snd (loop_iteration hw w))
    = wire_bytes {| v1 := u16 (hw_analogRead hw k (A1 hw));
                    v2 := u16 (hw_analogRead hw (S k) (A2 hw));
                    v3 := u16 (hw_analogRead hw (S (S k)) (A3 hw)) |}
  /\ g_PerfCounters (snd (loop_iteration hw w))
    = counters_after_turn hw (micros_calls w) (g_PerfCounters w).
Proof.
  intros k. rewrite loop_iteration_split.
  split.
  - unfold bind at 1. rewrite measure_and_publish_run.
    rewrite (keeps_bind (@m_DeviceInfoCharacteristic PerfCounters)).
    + reflexivity.
    + apply PrintAllPerfCountersToSerial_keeps, emit_keeps_characteristic.
    + intros _. apply emit_keeps_characteristic.
  - unfold bind at 1. rewrite measure_and_publish_run.
    rewrite (keeps_bind (@g_PerfCounters PerfCounters)).
    + reflexivity.
    + apply PrintAllPerfCountersToSerial_keeps, emit_keeps_registry.
    + intros _. apply emit_keeps_registry.
Qed.

(** C3, as the code has it.  Any loop turn, whatever the converter reads,
    whose two per-turn counters have sample counts below [2^32 - 1] and at
    whose report no counter with samples has a zero average: it completes;
    channel 1, then 2, then 3 are sampled, each under the
    single-measurement counter, between the two [micros()] readings
    submitted to [allMeasurements]; the message built from the three
    readings of this turn is published between the two readings submitted
    to [ble]; the report follows and then [delay(1000)]; the attribute
    holds those three readings, two bytes each, low byte first, in channel
    order; the sample counts of [allMeasurements] and [ble] have each gone
    up by exactly one.  In particular, when the converter reads 111, 222,
    333 on [A1], [A2], [A3], the attribute holds [111 0 222 0 77 1]. *)
Theorem loop_iteration_samples_publishes_reports :
  forall (hw : Hardware) (w : World PerfCounters),
    0 <= counter (allMeasurements (g_PerfCounters w)) < UINT32_MAX ->
    0 <= counter (ble (g_PerfCounters w)) < UINT32_MAX ->
    existsb average_is_zero
      (members (counters_after_turn hw (micros_calls w) (g_PerfCounters w))) = false ->
    let n := micros_calls w in
    let k := analogRead_calls w in
    let r1 := u16 (hw_analogRead hw k (A1 hw)) in
    let r2 := u16 (hw_analogRead hw (S k) (A2 hw)) in
    let r3 := u16 (hw_analogRead hw (S (S k)) (A3 hw)) in
    let p := g_PerfCounters w in
    let p' := counters_after_turn hw n p in
    loop_iteration hw w =
      (Done tt,
       {| g_PerfCounters := p';
          g_Clock := snd (poll_clock (clock_readings_of_turn hw n) (g_Clock w));
          micros_calls := 13 + n;
          analogRead_calls := 3 + k;
          m_DeviceInfoCharacteristic :=
            [r1 mod 256; r1 / 256; r2 mod 256; r2 / 256; r3 mod 256; r3 / 256];
          trace := trace w ++ events_of_turn hw n r1 r2 r3
                     ++ [EvSerialPrint report_heading] ++ report_lines p'
                     ++ [EvDelay 1000] |})
    /\ (forall t1 t2 t3,
          wire_bytes (BLEDataMessage_new {| time := t1; value := r1 |}
                                          {| time := t2; value := r2 |}
                                          {| time := t3; value := r3 |})
          = [r1 mod 256; r1 / 256; r2 mod 256; r2 / 256; r3 mod 256; r3 / 256])
    /\ (hw_analogRead hw k (A1 hw) = 111 ->
        hw_analogRead hw (S k) (A2 hw) = 222 ->
        hw_analogRead hw (S (S k)) (A3 hw) = 333 ->
        m_DeviceInfoCharacteristic (snd (loop_iteration hw w))
        = [111; 0; 222; 0; 77; 1]
        /\ wire_bytes (BLEDataMessage_new {| time := 0; value := 111 |}
                                          {| time := 0; value := 222 |}
                                          {| time := 0; value := 333 |})
           = [111; 0; 222; 0; 77; 1])
    /\ counter (allMeasurements p') = counter (allMeasurements p) + 1
    /\ counter (ble p') = counter (ble p) + 1.
Proof.
  intros hw w Hall Hble Havg n k r1 r2 r3 p p'.
  assert (Hbytes : wire_bytes {| v1 := r1; v2 := r2; v3 := r3 |}
                   = [r1 mod 256; r1 / 256; r2 mod 256; r2 / 256;
                      r3 mod 256; r3 / 256]).
  { unfold wire_bytes. cbn [v1 v2 v3].
    rewrite !le16_of_u16 by (subst r1 r2 r3; apply u16_range).
    reflexivity. }
  split; [|split; [|split]].
  - rewrite loop_iteration_split.
    unfold bind at 1. rewrite measure_and_publish_run.
    fold k. fold r1 r2 r3. rewrite Hbytes.
    unfold bind at 1.
    rewrite PrintAllPerfCountersToSerial_run by exact Havg.
    unfold delay, emit.
    cbn [g_PerfCounters g_Clock micros_calls analogRead_calls
         m_DeviceInfoCharacteristic trace].
    subst n p p'.
    rewrite <- !app_assoc. reflexivity.
  - intros t1 t2 t3. exact Hbytes.
  - intros H1 H2 H3.
    destruct (loop_iteration_publishes hw w) as [Ha _]. cbv zeta in Ha.
    fold k in Ha. rewrite Ha, H1, H2, H3.
    split; reflexivity.
  - subst p' p n. unfold UINT32_MAX in Hall, Hble.
    unfold counters_after_turn, SubmitPerfMeasurement.
    cbn [allMeasurements ble counter].
    rewrite !u32_small by (unfold is_u32; lia).
    split; reflexivity.
Qed.

(** The first turn from boot on the bench device, whose pins read 111,
    222, 333. *)
Lemma loop_iteration_samples_publishes_reports_witness :
  let p' := counters_after_turn bench_hw 0 PerfCounters_new in
  loop_iteration bench_hw world_at_boot =
    (Done tt,
     {| g_PerfCounters := p';
        g_Clock := snd (poll_clock (clock_readings_of_turn bench_hw 0) clock_at_boot);
        micros_calls := 13;
        analogRead_calls := 3;
        m_DeviceInfoCharacteristic := [111; 0; 222; 0; 77; 1];
        trace := [] ++ events_of_turn bench_hw 0 111 222 333
                   ++ [EvSerialPrint report_heading] ++ report_lines p'
                   ++ [EvDelay 1000] |})
  /\ (forall t1 t2 t3,
        wire_bytes (BLEDataMessage_new {| time := t1; value := 111 |}
                                        {| time := t2; value := 222 |}
                                        {| time := t3; value := 333 |})
        = [111; 0; 222; 0; 77; 1])
  /\ (hw_analogRead bench_hw 0 (A1 bench_hw) = 111 ->
      hw_analogRead bench_hw 1 (A2 bench_hw) = 222 ->
      hw_analogRead bench_hw 2 (A3 bench_hw) = 333 ->
      m_DeviceInfoCharacteristic (snd (loop_iteration bench_hw world_at_boot))
      = [111; 0; 222; 0; 77; 1]
      /\ wire_bytes (BLEDataMessage_new {| time := 0; value := 111 |}
                                        {| time := 0; value := 222 |}
                                        {| time := 0; value := 333 |})
         = [111; 0; 222; 0; 77; 1])
  /\ counter (allMeasurements p') = 0 + 1
  /\ counter (ble p') = 0 + 1.
Proof.
  apply (loop_iteration_samples_publishes_reports bench_hw world_at_boot).
  - unfold UINT32_MAX. simpl. lia.
  - unfold UINT32_MAX. simpl. lia.
  - vm_compute. reflexivity.
Defined.

(** A turn on a device whose pins read 1, 2, 3: the attribute holds 1, 2,
    3, not the bytes of any other readings. *)
Example turn_publishes_its_own_readings :
  let hw := {| hw_micros := fun i => 10 * Z.of_nat i;
               hw_analogRead := fun _ pin => pin;
               A1 := 1; A2 := 2; A3 := 3 |} in
  m_DeviceInfoCharacteristic (snd (loop_iteration hw world_at_boot))
  = [1; 0; 2; 0; 3; 0].
Proof. reflexivity. Qed.

(** What that first turn prints. *)
Example first_turn_report :
  report_lines (counters_after_turn bench_hw 0 PerfCounters_new) =
  [EvSerialCounterLine "allMeasurements" 100 10000;
   EvSerialCounterLine "singleMeasurement" 20 50000;
   EvSerialCounterLine "ble" 10 100000].
Proof. reflexivity. Qed.

(** Against C3 as specified, where a sample count is at its largest
    value.  The turn that follows [2^32 - 1] earlier ones reads 111, 222,
    333 and publishes their bytes, and leaves the sample counts of
    [allMeasurements] and [ble] at 0, not at one more than before. *)
Lemma loop_iteration_sample_counts_wrap :
  let w := with_counters worn_counters in
  let w' := snd (loop_iteration bench_hw w) in
  m_DeviceInfoCharacteristic w' = [111; 0; 222; 0; 77; 1]
  /\ counter (allMeasurements (g_PerfCounters w)) = 4294967295
  /\ counter (allMeasurements (g_PerfCounters w')) = 0
  /\ counter (ble (g_PerfCounters w)) = 4294967295
  /\ counter (ble (g_PerfCounters w')) = 0.
Proof.
  vm_compute. repeat split.
Qed.

(** * Further properties *)

(** ** The clock, whatever the gaps *)

Lemma u32_of_u64 x : u32 (u64 x) = u32 x.
Proof.
  unfold u32, u64. apply Z.mod_mod_divide.
  exists (2 ^ 32). reflexivity.
Qed.

Lemma u32_idem x : u32 (u32 x) = u32 x.
Proof. unfold u32. apply Z.mod_mod. lia. Qed.

(** One call keeps the accumulator and the stored reading equal in their
    low 32 bits, and returns a value whose low 32 bits are the reading. *)
Lemma GetClockValue_on_low_bits raw s :
  u32 (g_ClockAccumulator s) = g_ClockLastMicros s ->
  u32 (fst (GetClockValue_on raw s)) = u32 raw
  /\ u32 (g_ClockAccumulator (snd (GetClockValue_on raw s)))
     = g_ClockLastMicros (snd (GetClockValue_on raw s)).
Proof.
  intros H. unfold GetClockValue_on. cbn [fst snd g_ClockAccumulator g_ClockLastMicros].
  assert (E : u32 (u64 (g_ClockAccumulator s
                        + u32 (u32 raw - g_ClockLastMicros s))) = u32 raw).
  { rewrite u32_of_u64, <- H. unfold u32.
    rewrite Zplus_mod_idemp_r.
    replace (g_ClockAccumulator s
             + (raw mod 2 ^ 32 - g_ClockAccumulator s mod 2 ^ 32))
      with (raw mod 2 ^ 32 + (g_ClockAccumulator s / 2 ^ 32) * 2 ^ 32)
      by (pose proof (Z.div_mod (g_ClockAccumulator s) (2 ^ 32)); lia).
    rewrite Z.mod_add by lia. apply Z.mod_mod. lia. }
  split; exact E.
Qed.

(** From a clock whose accumulator and stored reading agree in their low
    32 bits (at boot both are 0) the low 32 bits of every value
    [GetClockValue] returns are the reading [micros()] gave that call:
    however far apart the calls, and past [2^64] too, the clock is only
    ever wrong by a multiple of [2^32] microseconds. *)
Theorem GetClockValue_low_bits_follow_micros :
  forall (raws : list Z) (s : ClockState),
    u32 (g_ClockAccumulator s) = g_ClockLastMicros s ->
    map u32 (fst (poll_clock raws s)) = map u32 raws
    /\ u32 (g_ClockAccumulator (snd (poll_clock raws s)))
       = g_ClockLastMicros (snd (poll_clock raws s)).
Proof.
  induction raws as [|raw rest IH]; intros s H.
  - split; [reflexivity | exact H].
  - rewrite poll_clock_cons. cbn [fst snd map].
    destruct (GetClockValue_on_low_bits raw s H) as [Hv Hs].
    destruct (IH _ Hs) as [IHv IHs].
    split; [f_equal; assumption | exact IHs].
Qed.

Lemma GetClockValue_low_bits_follow_micros_witness :
  map u32 (fst (poll_clock [4294967000; 17; 2 ^ 40 + 5] clock_at_boot))
    = map u32 [4294967000; 17; 2 ^ 40 + 5]
  /\ u32 (g_ClockAccumulator (snd (poll_clock [4294967000; 17; 2 ^ 40 + 5] clock_at_boot)))
     = g_ClockLastMicros (snd (poll_clock [4294967000; 17; 2 ^ 40 + 5] clock_at_boot)).
Proof.
  apply (GetClockValue_low_bits_follow_micros [4294967000; 17; 2 ^ 40 + 5] clock_at_boot).
  reflexivity.
Defined.

Lemma wrapped_delta_mod t0 t :
  u32 (u32 (micros_of_time t) - micros_of_time t0) = (t - t0) mod 2 ^ 32.
Proof.
  unfold u32, micros_of_time.
  rewrite (Z.mod_mod t) by lia.
  rewrite <- Zminus_mod. reflexivity.
Qed.

(** A call made [d] microseconds of hardware time after the previous one
    advances the clock by [d mod 2^32]: what is lost is [2^32] for every
    whole wrap period in the gap, and nothing else. *)
Theorem GetClockValue_advances_by_gap_modulo_wrap :
  forall (s : ClockState) (t0 t : Z),
    g_ClockLastMicros s = micros_of_time t0 ->
    t0 <= t ->
    0 <= g_ClockAccumulator s ->
    g_ClockAccumulator s + (t - t0) mod 2 ^ 32 < 2 ^ 64 ->
    GetClockValue_on (micros_of_time t) s =
      (g_ClockAccumulator s + (t - t0) mod 2 ^ 32,
       {| g_ClockLastMicros := micros_of_time t;
          g_ClockAccumulator := g_ClockAccumulator s + (t - t0) mod 2 ^ 32 |})
    /\ (t - t0) - (t - t0) mod 2 ^ 32 = 2 ^ 32 * ((t - t0) / 2 ^ 32).
Proof.
  intros s t0 t Hlast Ht Hacc Hfit. split.
  - pose proof (wrapped_delta_mod t0 t) as Hd. rewrite <- Hlast in Hd.
    rewrite GetClockValue_on_in_range by (rewrite ?Hd; assumption).
    rewrite Hd, u32_micros_of_time. reflexivity.
  - pose proof (Z.div_mod (t - t0) (2 ^ 32)). lia.
Qed.

Lemma GetClockValue_advances_by_gap_modulo_wrap_witness :
  GetClockValue_on (micros_of_time (3 * 2 ^ 32 + 250)) clock_at_boot =
    (0 + (3 * 2 ^ 32 + 250 - 0) mod 2 ^ 32,
     {| g_ClockLastMicros := micros_of_time (3 * 2 ^ 32 + 250);
        g_ClockAccumulator := 0 + (3 * 2 ^ 32 + 250 - 0) mod 2 ^ 32 |})
  /\ (3 * 2 ^ 32 + 250 - 0) - (3 * 2 ^ 32 + 250 - 0) mod 2 ^ 32
     = 2 ^ 32 * ((3 * 2 ^ 32 + 250 - 0) / 2 ^ 32).
Proof.
  apply (GetClockValue_advances_by_gap_modulo_wrap clock_at_boot 0 (3 * 2 ^ 32 + 250)).
  - reflexivity.
  - lia.
  - simpl. lia.
  - vm_compute. reflexivity.
Defined.

(** ** Submissions *)

Lemma u64_add_add a d1 d2 :
  u64 (u64 (a + u64 d1) + u64 d2) = u64 (a + d1 + d2).
Proof.
  unfold u64.
  rewrite Zplus_mod_idemp_l, Zplus_mod_idemp_r.
  replace (a + d1 mod 2 ^ 64 + d2) with ((a + d2) + d1 mod 2 ^ 64) by lia.
  rewrite Zplus_mod_idemp_r. f_equal. lia.
Qed.

Lemma u32_add_add c a b : u32 (u32 (c + a) + b) = u32 (c + (a + b)).
Proof.
  unfold u32. rewrite Zplus_mod_idemp_l. f_equal. lia.
Qed.

Lemma SubmitPerfMeasurement_swap c s1 e1 s2 e2 :
  SubmitPerfMeasurement (SubmitPerfMeasurement c s1 e1) s2 e2 =
  SubmitPerfMeasurement (SubmitPerfMeasurement c s2 e2) s1 e1.
Proof.
  unfold SubmitPerfMeasurement. cbn [label accumulator counter].
  f_equal. rewrite !u64_add_add. f_equal. lia.
Qed.

(** Two submissions, to the same counter or to different ones, leave the
    same registry in either order, wrap-around included. *)
Theorem submissions_commute :
  forall (r1 r2 : CounterRef) (s1 e1 s2 e2 : Z) (p : PerfCounters),
    through r1 (fun c => SubmitPerfMeasurement c s1 e1)
      (through r2 (fun c => SubmitPerfMeasurement c s2 e2) p)
    = through r2 (fun c => SubmitPerfMeasurement c s2 e2)
        (through r1 (fun c => SubmitPerfMeasurement c s1 e1) p).
Proof.
  intros r1 r2 s1 e1 s2 e2 [pa ps pb].
  destruct r1, r2; cbn [through allMeasurements singleMeasurement ble];
    try reflexivity; f_equal; apply SubmitPerfMeasurement_swap.
Qed.

(** A scoped measurement whose two readings of [micros()] lie on either
    side of the 32-bit wrap ([end < start], both 32-bit): the readings are
    widened before they are subtracted, so the accumulator goes down by
    [start - end] if it can and otherwise jumps up by [2^64 - (start -
    end)]; in neither case does it grow by the time elapsed,
    [end + 2^32 - start]. *)
Theorem SubmitPerfMeasurement_across_micros_wrap :
  forall (c : PerfCounter) (start end_ : Z),
    is_u32 start -> is_u32 end_ -> end_ < start ->
    is_u64 (accumulator c) ->
    accumulator (SubmitPerfMeasurement c start end_) =
      (if start - end_ <=? accumulator c
       then accumulator c - (start - end_)
       else accumulator c + 2 ^ 64 - (start - end_))
    /\ accumulator (SubmitPerfMeasurement c start end_)
       <> accumulator c + (end_ + 2 ^ 32 - start).
Proof.
  unfold is_u32, is_u64. intros c start end_ Hs He Hlt Hacc.
  assert (E : accumulator (SubmitPerfMeasurement c start end_)
              = u64 (accumulator c + (end_ - start))).
  { unfold SubmitPerfMeasurement. cbn [accumulator]. unfold u64.
    apply Zplus_mod_idemp_r. }
  rewrite E. unfold u64.
  destruct (Z.leb_spec (start - end_) (accumulator c)) as [Hle|Hgt].
  - rewrite Z.mod_small by lia. split; lia.
  - replace (accumulator c + (end_ - start))
      with (accumulator c + 2 ^ 64 - (start - end_) + (-1) * 2 ^ 64) by lia.
    rewrite Z.mod_add by lia. rewrite Z.mod_small by lia. split; lia.
Qed.

Lemma SubmitPerfMeasurement_across_micros_wrap_witness :
  accumulator (SubmitPerfMeasurement (PerfCounter_new "ble") 4294967290 4) =
    (if 4294967290 - 4 <=? accumulator (PerfCounter_new "ble")
     then accumulator (PerfCounter_new "ble") - (4294967290 - 4)
     else accumulator (PerfCounter_new "ble") + 2 ^ 64 - (4294967290 - 4))
  /\ accumulator (SubmitPerfMeasurement (PerfCounter_new "ble") 4294967290 4)
     <> accumulator (PerfCounter_new "ble") + (4 + 2 ^ 32 - 4294967290).
Proof.
  apply (SubmitPerfMeasurement_across_micros_wrap (PerfCounter_new "ble") 4294967290 4).
  - unfold is_u32. lia.
  - unfold is_u32. lia.
  - lia.
  - unfold is_u64. simpl. lia.
Defined.

Lemma durations_nonneg intervals :
  Forall (fun se => fst se <= snd se) intervals -> 0 <= sumZ (durations intervals).
Proof.
  induction 1 as [|[s e] rest H _ IH]; cbn [durations map sumZ fold_right fst snd] in *.
  - lia.
  - unfold sumZ, durations in IH. lia.
Qed.

Lemma submit_all_in_range intervals : forall c,
  Forall (fun se => fst se <= snd se) intervals ->
  0 <= accumulator c ->
  accumulator c + sumZ (durations intervals) < 2 ^ 64 ->
  0 <= counter c ->
  counter c + Z.of_nat (List.length intervals) <= UINT32_MAX ->
  submit_all c intervals =
  {| label := label c;
     accumulator := accumulator c + sumZ (durations intervals);
     counter := counter c + Z.of_nat (List.length intervals) |}.
Proof.
  induction intervals as [|[s e] rest IH]; intros c Hall Hacc Hsum Hcnt Hlen.
  - cbn. destruct c. cbn. f_equal; lia.
  - inversion Hall as [|x l Hse Hrest]; subst. cbn [fst snd] in Hse.
    pose proof (durations_nonneg rest Hrest) as Hnn.
    change (sumZ (durations ((s, e) :: rest)))
      with ((e - s) + sumZ (durations rest)) in *.
    change (List.length ((s, e) :: rest)) with (S (List.length rest)) in *.
    rewrite Nat2Z.inj_succ in *.
    cbn [submit_all].
    rewrite SubmitPerfMeasurement_in_range by (unfold UINT32_MAX in *; lia).
    rewrite IH; cbn [label accumulator counter]; try assumption; try lia.
    f_equal; lia.
Qed.

(** Counter averaging.  [N >= 1] scoped measurements submitted to a fresh
    counter, each with its readings the right way round, their durations
    adding up to less than [2^64] and to at least [N]: the counter holds
    the sum and the number [N], and its report line shows the sum divided
    by [N], rounded down, and one million divided by that. *)
Theorem averaging_after_submissions :
  forall (name : string) (intervals : list (Z * Z)) (w : World PerfCounters),
    Forall (fun se => fst se <= snd se) intervals ->
    sumZ (durations intervals) < 2 ^ 64 ->
    0 < Z.of_nat (List.length intervals) <= UINT32_MAX ->
    Z.of_nat (List.length intervals) <= sumZ (durations intervals) ->
    let total := sumZ (durations intervals) in
    let N := Z.of_nat (List.length intervals) in
    let c := submit_all (PerfCounter_new name) intervals in
    c = {| label := name; accumulator := total; counter := N |}
    /\ PrintPerfCounterToSerial c w =
       (Done tt,
        {| g_PerfCounters := g_PerfCounters w;
           g_Clock := g_Clock w;
           micros_calls := micros_calls w;
           analogRead_calls := analogRead_calls w;
           m_DeviceInfoCharacteristic := m_DeviceInfoCharacteristic w;
           trace := trace w ++
             [EvSerialCounterLine name (total / N) (1000000 / (total / N))] |}).
Proof.
  intros name intervals w Hall Hsum Hlen Havg total N c.
  assert (Hc : c = {| label := name; accumulator := total; counter := N |}).
  { subst c total N. rewrite submit_all_in_range;
      cbn [PerfCounter_new label accumulator counter]; try assumption; try lia.
    reflexivity. }
  split; [exact Hc|].
  rewrite Hc. rewrite PrintPerfCounterToSerial_line.
  - unfold report_line. cbn [label accumulator counter].
    destruct (Z.leb_spec N 0); [subst N; lia | reflexivity].
  - unfold average_is_zero. cbn [accumulator counter].
    apply andb_false_intro2. apply Z.eqb_neq.
    intros H0. apply Z.div_small_iff in H0; subst total N; lia.
Qed.

Lemma averaging_after_submissions_witness :
  let intervals := [(100, 130); (200, 250); (4000, 4010)] in
  let total := sumZ (durations intervals) in
  let N := Z.of_nat (List.length intervals) in
  let c := submit_all (PerfCounter_new "singleMeasurement") intervals in
  c = {| label := "singleMeasurement"; accumulator := total; counter := N |}
  /\ PrintPerfCounterToSerial c world_at_boot =
     (Done tt,
      {| g_PerfCounters := g_PerfCounters world_at_boot;
         g_Clock := g_Clock world_at_boot;
         micros_calls := micros_calls world_at_boot;
         analogRead_calls := analogRead_calls world_at_boot;
         m_DeviceInfoCharacteristic := m_DeviceInfoCharacteristic world_at_boot;
         trace := trace world_at_boot ++
           [EvSerialCounterLine "singleMeasurement" (total / N) (1000000 / (total / N))] |}).
Proof.
  apply (averaging_after_submissions "singleMeasurement"
           [(100, 130); (200, 250); (4000, 4010)] world_at_boot).
  - repeat constructor; simpl; lia.
  - vm_compute. reflexivity.
  - vm_compute. split; [reflexivity | discriminate].
  - vm_compute. discriminate.
Defined.

(** ** Printing *)

Lemma average_is_zero_iff c :
  0 <= accumulator c ->
  average_is_zero c = true <-> 0 < counter c /\ accumulator c < counter c.
Proof.
  intros Hacc. unfold average_is_zero.
  rewrite andb_true_iff, Z.ltb_lt, Z.eqb_eq. split.
  - intros [Hpos Hz]. split; [exact Hpos|].
    apply Z.div_small_iff in Hz; lia.
  - intros [Hpos Hlt]. split; [exact Hpos|].
    apply Z.div_small. lia.
Qed.

Lemma PrintPerfCounterToSerial_cases {R} (c : PerfCounter) (w : World R) :
  PrintPerfCounterToSerial c w =
  if average_is_zero c then (Trapped IntegerDivideByZero, w)
  else (Done tt,
        {| g_PerfCounters := g_PerfCounters w;
           g_Clock := g_Clock w;
           micros_calls := micros_calls w;
           analogRead_calls := analogRead_calls w;
           m_DeviceInfoCharacteristic := m_DeviceInfoCharacteristic w;
           trace := trace w ++ report_line c |}).
Proof.
  destruct (average_is_zero c) eqn:E.
  - apply PrintPerfCounterToSerial_zero_average, E.
  - apply PrintPerfCounterToSerial_line, E.
Qed.

(** Printing a counter traps exactly when the counter has samples and an
    accumulator smaller than their number; in every other case it
    completes, and it never leaves the world changed when it traps. *)
Theorem PrintPerfCounterToSerial_traps_exactly_when :
  forall (c : PerfCounter) (w : World PerfCounters),
    0 <= accumulator c ->
    (fst (PrintPerfCounterToSerial c w) = Trapped IntegerDivideByZero
     <-> 0 < counter c /\ accumulator c < counter c)
    /\ (fst (PrintPerfCounterToSerial c w) = Done tt
        <-> ~ (0 < counter c /\ accumulator c < counter c))
    /\ (fst (PrintPerfCounterToSerial c w) <> Done tt ->
        snd (PrintPerfCounterToSerial c w) = w).
Proof.
  intros c w Hacc.
  pose proof (average_is_zero_iff c Hacc) as Hiff.
  rewrite PrintPerfCounterToSerial_cases.
  destruct (average_is_zero c); cbn [fst snd].
  - assert (Hyes : 0 < counter c /\ accumulator c < counter c)
      by (apply Hiff; reflexivity).
    split; [|split].
    + split; [intros _; exact Hyes | reflexivity].
    + split; [discriminate | intros Hn; contradiction].
    + reflexivity.
  - assert (Hno : ~ (0 < counter c /\ accumulator c < counter c)).
    { intros H. apply Hiff in H. discriminate H. }
    split; [|split].
    + split; [discriminate | intros H; contradiction].
    + split; [intros _; exact Hno | reflexivity].
    + intros Hn. exfalso. apply Hn. reflexivity.
Qed.

Lemma PrintPerfCounterToSerial_traps_exactly_when_witness :
  (fst (PrintPerfCounterToSerial
          {| label := "ble"; accumulator := 2; counter := 3 |} world_at_boot)
     = Trapped IntegerDivideByZero
   <-> 0 < 3 /\ 2 < 3)
  /\ (fst (PrintPerfCounterToSerial
             {| label := "ble"; accumulator := 2; counter := 3 |} world_at_boot)
        = Done tt
      <-> ~ (0 < 3 /\ 2 < 3))
  /\ (fst (PrintPerfCounterToSerial
             {| label := "ble"; accumulator := 2; counter := 3 |} world_at_boot)
        <> Done tt ->
      snd (PrintPerfCounterToSerial
             {| label := "ble"; accumulator := 2; counter := 3 |} world_at_boot)
      = world_at_boot).
Proof.
  apply (PrintPerfCounterToSerial_traps_exactly_when
           {| label := "ble"; accumulator := 2; counter := 3 |} world_at_boot).
  simpl. lia.
Defined.

(** What the printed numbers mean.  For a counter with samples and an
    accumulator at least their number, printing completes with one line
    that shows the average rounded down and the frequency rounded down; a
    block slower than a second on average is reported at 0 Hz. *)
Theorem PrintPerfCounterToSerial_rounds_down :
  forall (c : PerfCounter) (w : World PerfCounters),
    0 < counter c -> counter c <= accumulator c ->
    let avg := accumulator c / counter c in
    let hz := 1000000 / avg in
    PrintPerfCounterToSerial c w =
      (Done tt,
       {| g_PerfCounters := g_PerfCounters w;
          g_Clock := g_Clock w;
          micros_calls := micros_calls w;
          analogRead_calls := analogRead_calls w;
          m_DeviceInfoCharacteristic := m_DeviceInfoCharacteristic w;
          trace := trace w ++ [EvSerialCounterLine (label c) avg hz] |})
    /\ 1 <= avg
    /\ avg * counter c <= accumulator c < (avg + 1) * counter c
    /\ hz * avg <= 1000000 < (hz + 1) * avg
    /\ (hz = 0 <-> 1000000 < avg).
Proof.
  intros c w Hpos Hle avg hz.
  assert (Havg : 1 <= avg).
  { subst avg. apply Z.div_le_lower_bound; lia. }
  pose proof (Z.div_mod (accumulator c) (counter c) ltac:(lia)) as Hd.
  pose proof (Z.mod_pos_bound (accumulator c) (counter c) Hpos) as Hm.
  pose proof (Z.div_mod 1000000 avg ltac:(lia)) as Hd'.
  pose proof (Z.mod_pos_bound 1000000 avg ltac:(lia)) as Hm'.
  fold avg in Hd. fold hz in Hd'.
  split; [|split; [exact Havg | split; [|split]]].
  - rewrite PrintPerfCounterToSerial_line.
    + unfold report_line.
      destruct (Z.leb_spec (counter c) 0); [lia | reflexivity].
    + unfold average_is_zero. apply andb_false_intro2.
      apply Z.eqb_neq. fold avg. lia.
  - nia.
  - nia.
  - split.
    + intros H0. rewrite H0 in Hd'. lia.
    + intros Hbig. subst hz. apply Z.div_small. lia.
Qed.

Lemma PrintPerfCounterToSerial_rounds_down_witness :
  let c := {| label := "allMeasurements"; accumulator := 7000001; counter := 3 |} in
  let avg := accumulator c / counter c in
  let hz := 1000000 / avg in
  PrintPerfCounterToSerial c world_at_boot =
    (Done tt,
     {| g_PerfCounters := g_PerfCounters world_at_boot;
        g_Clock := g_Clock world_at_boot;
        micros_calls := micros_calls world_at_boot;
        analogRead_calls := analogRead_calls world_at_boot;
        m_DeviceInfoCharacteristic := m_DeviceInfoCharacteristic world_at_boot;
        trace := trace world_at_boot ++ [EvSerialCounterLine (label c) avg hz] |})
  /\ 1 <= avg
  /\ avg * counter c <= accumulator c < (avg + 1) * counter c
  /\ hz * avg <= 1000000 < (hz + 1) * avg
  /\ (hz = 0 <-> 1000000 < avg).
Proof.
  apply (PrintPerfCounterToSerial_rounds_down
           {| label := "allMeasurements"; accumulator := 7000001; counter := 3 |}
           world_at_boot).
  - simpl. lia.
  - simpl. lia.
Defined.

Lemma print_counter_at (w : World PerfCounters) i c :
  PerfCounters_at (g_PerfCounters w) i = Some c ->
  (p <- read_registry ;;
   match PerfCounters_at p i with
   | Some c0 => PrintPerfCounterToSerial c0
   | None => trap IndexOutOfRange
   end) w
  = PrintPerfCounterToSerial c w.
Proof.
  intros H. unfold bind, read_registry. rewrite H. reflexivity.
Qed.

(** The whole report, for any registry.  It prints the heading, then the
    lines of the counters in declaration order up to the first one that
    has samples and a zero average; it traps there, with a division by
    zero, and completes if there is none.  It never indexes outside the
    registry, and it leaves counters, clock, call counts and attribute as
    they were. *)
Theorem PrintAllPerfCountersToSerial_in_full :
  forall w : World PerfCounters,
    PrintAllPerfCountersToSerial w =
    ((if existsb average_is_zero (members (g_PerfCounters w))
      then Trapped IntegerDivideByZero else Done tt),
     {| g_PerfCounters := g_PerfCounters w;
        g_Clock := g_Clock w;
        micros_calls := micros_calls w;
        analogRead_calls := analogRead_calls w;
        m_DeviceInfoCharacteristic := m_DeviceInfoCharacteristic w;
        trace := trace w ++
          EvSerialPrint report_heading
          :: lines_before_trap (members (g_PerfCounters w)) |}).
Proof.
  intros [[pa ps pb] c n k a tr].
  unfold PrintAllPerfCountersToSerial, PerfCounters_size.
  cbn [for_each_index members lines_before_trap existsb
       g_PerfCounters g_Clock micros_calls analogRead_calls
       m_DeviceInfoCharacteristic trace
       allMeasurements singleMeasurement ble].
  unfold bind at 1. unfold emit at 1.
  cbn [g_PerfCounters g_Clock micros_calls analogRead_calls
       m_DeviceInfoCharacteristic trace].
  unfold bind at 1.
  rewrite (print_counter_at _ 0%nat pa) by reflexivity.
  rewrite PrintPerfCounterToSerial_cases.
  destruct (average_is_zero pa); cbn [orb].
  { reflexivity. }
  cbn [g_PerfCounters g_Clock micros_calls analogRead_calls
       m_DeviceInfoCharacteristic trace].
  unfold bind at 1.
  rewrite (print_counter_at _ 1%nat ps) by reflexivity.
  rewrite PrintPerfCounterToSerial_cases.
  destruct (average_is_zero ps); cbn [orb].
  { rewrite ?app_nil_r. flatten_trace. reflexivity. }
  cbn [g_PerfCounters g_Clock micros_calls analogRead_calls
       m_DeviceInfoCharacteristic trace].
  unfold bind at 1.
  rewrite (print_counter_at _ 2%nat pb) by reflexivity.
  rewrite PrintPerfCounterToSerial_cases.
  destruct (average_is_zero pb); cbn [orb].
  { rewrite ?app_nil_r. flatten_trace. reflexivity. }
  cbn [g_PerfCounters g_Clock micros_calls analogRead_calls
       m_DeviceInfoCharacteristic trace ret].
  rewrite ?app_nil_r. flatten_trace. reflexivity.
Qed.

(** ** The loop, further *)

Lemma decode_wire_bytes m :
  decode (wire_bytes m) = Some (u16 (v1 m), u16 (v2 m), u16 (v3 m)).
Proof.
  unfold wire_bytes, le16. cbn [app decode].
  rewrite !le16_recombine. reflexivity.
Qed.

Lemma holds_a_message_shape bytes :
  holds_a_message bytes ->
  List.length bytes = 6%nat /\ Forall is_u8 bytes
  /\ exists c1 c2 c3, decode bytes = Some (c1, c2, c3)
                      /\ is_u16 c1 /\ is_u16 c2 /\ is_u16 c3.
Proof.
  intros [m ->]. split; [reflexivity|]. split.
  - unfold wire_bytes. rewrite !Forall_app. repeat split; apply le16_bytes.
  - exists (u16 (v1 m)), (u16 (v2 m)), (u16 (v3 m)).
    split; [apply decode_wire_bytes|].
    repeat split; apply u16_range.
Qed.

(** What a loop turn leaves in the attribute.  Whatever the state the
    turn starts in, whatever the converter returns, and whether or not the
    report that ends the turn completes, the attribute holds the three
    readings of that turn, two bytes each, low byte first, channel by
    channel; read back field by field they are those three readings. *)
Theorem loop_iteration_attribute_holds_the_readings :
  forall (hw : Hardware) (w : World PerfCounters),
    let r1 := u16 (hw_analogRead hw (analogRead_calls w) (A1 hw)) in
    let r2 := u16 (hw_analogRead hw (S (analogRead_calls w)) (A2 hw)) in
    let r3 := u16 (hw_analogRead hw (S (S (analogRead_calls w))) (A3 hw)) in
    m_DeviceInfoCharacteristic (snd (loop_iteration hw w))
      = [r1 mod 256; r1 / 256; r2 mod 256; r2 / 256; r3 mod 256; r3 / 256]
    /\ decode (m_DeviceInfoCharacteristic (snd (loop_iteration hw w)))
      = Some (r1, r2, r3).
Proof.
  intros hw w r1 r2 r3.
  destruct (loop_iteration_publishes hw w) as [Ha _]. cbv zeta in Ha.
  fold r1 r2 r3 in Ha. rewrite Ha. split.
  - unfold wire_bytes. cbn [v1 v2 v3].
    rewrite !le16_of_u16 by (subst r1 r2 r3; apply u16_range).
    reflexivity.
  - rewrite decode_wire_bytes. cbn [v1 v2 v3].
    subst r1 r2 r3. rewrite !u16_idem. reflexivity.
Qed.

Lemma BLEApi_new_run (w : World PerfCounters) :
  fst (BLEApi_new w) = Done tt
  /\ m_DeviceInfoCharacteristic (snd (BLEApi_new w)) = wire_bytes BLEDataMessage_default.
Proof.
  destruct w as [p c n k a tr]. split; reflexivity.
Qed.

Lemma loop_iterations_hold_a_message hw n : forall w : World PerfCounters,
  holds_a_message (m_DeviceInfoCharacteristic w) ->
  holds_a_message (m_DeviceInfoCharacteristic (snd (loop_iterations hw n w))).
Proof.
  induction n as [|n IH]; intros w H; cbn [loop_iterations].
  - exact H.
  - unfold bind.
    pose proof (loop_iteration_publishes hw w) as [Ha _]. cbv zeta in Ha.
    destruct (loop_iteration hw w) as [[u|f] w1]; cbn [snd] in *.
    + apply IH. rewrite Ha. eexists. reflexivity.
    + rewrite Ha. eexists. reflexivity.
Qed.

(** The attribute is always a whole message.  From whatever state
    [setup()] is entered, and after any number of loop turns, completed or
    cut short by a trap, the attribute holds exactly 6 bytes, each in
    [0, 255], that decode to three 16-bit values. *)
Theorem setup_attribute_is_always_six_bytes :
  forall (hw : Hardware) (n : nat) (w : World PerfCounters),
    let bytes := m_DeviceInfoCharacteristic (snd (setup hw n w)) in
    List.length bytes = 6%nat
    /\ Forall is_u8 bytes
    /\ exists c1 c2 c3, decode bytes = Some (c1, c2, c3)
                        /\ is_u16 c1 /\ is_u16 c2 /\ is_u16 c3.
Proof.
  intros hw n w bytes. apply holds_a_message_shape. subst bytes.
  unfold setup.
  unfold bind at 1. unfold emit at 1.
  match goal with
  | |- context [bind BLEApi_new _ ?w0] =>
      pose proof (BLEApi_new_run w0) as [Hd Ha]; unfold bind;
      destruct (BLEApi_new w0) as [[u|f] w1]
  end; cbn [fst snd] in *.
  - apply loop_iterations_hold_a_message. rewrite Ha. eexists. reflexivity.
  - discriminate Hd.
Qed.

Lemma emit_keeps_micros_calls {R} e : keeps (@micros_calls R) (emit e).
Proof. intros w. reflexivity. Qed.

Lemma emit_keeps_analogRead_calls {R} e : keeps (@analogRead_calls R) (emit e).
Proof. intros w. reflexivity. Qed.

Lemma loop_iteration_call_counts hw (w : World PerfCounters) :
  micros_calls (snd (loop_iteration hw w)) = (13 + micros_calls w)%nat
  /\ analogRead_calls (snd (loop_iteration hw w)) = (3 + analogRead_calls w)%nat.
Proof.
  rewrite loop_iteration_split.
  split.
  - unfold bind at 1. rewrite measure_and_publish_run.
    rewrite (keeps_bind (@micros_calls PerfCounters)).
    + reflexivity.
    + apply PrintAllPerfCountersToSerial_keeps, emit_keeps_micros_calls.
    + intros _. apply emit_keeps_micros_calls.
  - unfold bind at 1. rewrite measure_and_publish_run.
    rewrite (keeps_bind (@analogRead_calls PerfCounters)).
    + reflexivity.
    + apply PrintAllPerfCountersToSerial_keeps, emit_keeps_analogRead_calls.
    + intros _. apply emit_keeps_analogRead_calls.
Qed.

Lemma bind_done {R A B} (m : M R A) (k : A -> M R B) w b w' :
  bind m k w = (Done b, w') ->
  exists a w1, m w = (Done a, w1) /\ k a w1 = (Done b, w').
Proof.
  unfold bind. destruct (m w) as [[a|f] w1]; intros H.
  - exists a, w1. split; [reflexivity | exact H].
  - discriminate H.
Qed.

Lemma loop_iterations_S hw n :
  loop_iterations hw (S n) = bind (loop_iteration hw) (fun _ => loop_iterations hw n).
Proof. reflexivity. Qed.

Lemma counters_after_turn_counts hw n p :
  counter (allMeasurements (counters_after_turn hw n p))
    = u32 (counter (allMeasurements p) + 1)
  /\ counter (singleMeasurement (counters_after_turn hw n p))
    = u32 (counter (singleMeasurement p) + 3)
  /\ counter (ble (counters_after_turn hw n p))
    = u32 (counter (ble p) + 1).
Proof.
  unfold counters_after_turn, SubmitPerfMeasurement.
  cbn [allMeasurements singleMeasurement ble counter].
  rewrite !u32_add_add. repeat split; reflexivity.
Qed.

(** [n] loop turns that all complete, from a registry whose sample counts
    are 32-bit: the sample counts of [allMeasurements] and [ble] have gone
    up by [n] and that of [singleMeasurement] by [3 n], all modulo [2^32];
    the timer has been read [13 n] times and the converter [3 n] times. *)
Theorem completed_turns_count_samples :
  forall (n : nat) (hw : Hardware) (w w' : World PerfCounters),
    is_u32 (counter (allMeasurements (g_PerfCounters w))) ->
    is_u32 (counter (singleMeasurement (g_PerfCounters w))) ->
    is_u32 (counter (ble (g_PerfCounters w))) ->
    loop_iterations hw n w = (Done tt, w') ->
    counter (allMeasurements (g_PerfCounters w'))
      = u32 (counter (allMeasurements (g_PerfCounters w)) + Z.of_nat n)
    /\ counter (singleMeasurement (g_PerfCounters w'))
      = u32 (counter (singleMeasurement (g_PerfCounters w)) + 3 * Z.of_nat n)
    /\ counter (ble (g_PerfCounters w'))
      = u32 (counter (ble (g_PerfCounters w)) + Z.of_nat n)
    /\ micros_calls w' = (13 * n + micros_calls w)%nat
    /\ analogRead_calls w' = (3 * n + analogRead_calls w)%nat.
Proof.
  induction n as [|n IH]; intros hw w w' Ha Hs Hb Hrun.
  - cbn [loop_iterations ret] in Hrun. injection Hrun as <-.
    rewrite !Z.mul_0_r, !Z.add_0_r, !u32_small by assumption.
    repeat split; reflexivity.
  - rewrite loop_iterations_S in Hrun.
    apply bind_done in Hrun. destruct Hrun as (u & w1 & E & Hrest).
    destruct (loop_iteration_publishes hw w) as [_ Hreg]. cbv zeta in Hreg.
    destruct (loop_iteration_call_counts hw w) as [Hm Hk].
    rewrite E in Hreg, Hm, Hk. cbn [snd] in Hreg, Hm, Hk.
    destruct (counters_after_turn_counts hw (micros_calls w) (g_PerfCounters w))
      as (R1 & R2 & R3).
    rewrite <- Hreg in R1, R2, R3.
    destruct (IH hw w1 w') as (I1 & I2 & I3 & I4 & I5);
      try (rewrite ?R1, ?R2, ?R3; apply u32_range); try exact Hrest.
    rewrite I1, I2, I3, I4, I5, R1, R2, R3, Hm, Hk, !u32_add_add.
    rewrite Nat2Z.inj_succ.
    repeat split; try (f_equal; lia); lia.
Qed.

Lemma completed_turns_count_samples_witness :
  let w' := snd (loop_iterations bench_hw 3 world_at_boot) in
  counter (allMeasurements (g_PerfCounters w'))
    = u32 (counter (allMeasurements (g_PerfCounters world_at_boot)) + Z.of_nat 3)
  /\ counter (singleMeasurement (g_PerfCounters w'))
    = u32 (counter (singleMeasurement (g_PerfCounters world_at_boot)) + 3 * Z.of_nat 3)
  /\ counter (ble (g_PerfCounters w'))
    = u32 (counter (ble (g_PerfCounters world_at_boot)) + Z.of_nat 3)
  /\ micros_calls w' = (13 * 3 + micros_calls world_at_boot)%nat
  /\ analogRead_calls w' = (3 * 3 + analogRead_calls world_at_boot)%nat.
Proof.
  apply (completed_turns_count_samples 3 bench_hw world_at_boot
           (snd (loop_iterations bench_hw 3 world_at_boot))).
  - unfold is_u32. simpl. lia.
  - unfold is_u32. simpl. lia.
  - unfold is_u32. simpl. lia.
  - vm_compute. reflexivity.
Defined.

(** ** Scoped measurements in general *)

Lemma bind_step {R A B} (m : M R A) (k : A -> M R B) w a w1 :
  m w = (Done a, w1) -> bind m k w = k a w1.
Proof. unfold bind. intros ->. reflexivity. Qed.

Lemma micros_run {R} hw (w : World R) :
  micros hw w =
  (Done (micros_at hw (micros_calls w)),
   {| g_PerfCounters := g_PerfCounters w;
      g_Clock := g_Clock w;
      micros_calls := S (micros_calls w);
      analogRead_calls := analogRead_calls w;
      m_DeviceInfoCharacteristic := m_DeviceInfoCharacteristic w;
      trace := trace w ++ [EvMicros (micros_at hw (micros_calls w))] |}).
Proof. reflexivity. Qed.

(** A block that completes, under [MEG_PERF]: the block's result comes
    back unchanged, and on top of what the block did there are two more
    readings of the timer, one before and one after it, submitted to the
    target counter. *)
Lemma MEG_PERF_run {R A} hw
    (target : (PerfCounter -> PerfCounter) -> R -> R)
    (block : M R A) (w w2 : World R) (a : A) :
  block (snd (micros hw w)) = (Done a, w2) ->
  MEG_PERF hw target block w =
  (Done a,
   {| g_PerfCounters :=
        target (fun c => SubmitPerfMeasurement c
                           (micros_at hw (micros_calls w))
                           (micros_at hw (micros_calls w2)))
               (g_PerfCounters w2);
      g_Clock := g_Clock w2;
      micros_calls := S (micros_calls w2);
      analogRead_calls := analogRead_calls w2;
      m_DeviceInfoCharacteristic := m_DeviceInfoCharacteristic w2;
      trace := trace w2 ++ [EvMicros (micros_at hw (micros_calls w2))] |}).
Proof.
  intros Hblock. unfold MEG_PERF, MEG_DEBUG.
  rewrite (bind_step _ _ _ _ _ (micros_run hw w)).
  rewrite micros_run in Hblock. cbn [snd] in Hblock.
  rewrite (bind_step _ _ _ _ _ Hblock).
  rewrite (bind_step _ _ _ _ _ (micros_run hw w2)).
  reflexivity.
Qed.

(** ** esp32ble.ino, first sketch *)

Lemma Ak_analogRead_run hw pin (w : World Ak.PerfCounters) :
  let n := micros_calls w in
  let reading := u16 (hw_analogRead hw (analogRead_calls w) pin) in
  Ak.analogRead hw pin w =
  (Done reading,
   {| g_PerfCounters :=
        Ak.through_analogRead
          (fun c => SubmitPerfMeasurement c (micros_at hw n) (micros_at hw (S n)))
          (g_PerfCounters w);
      g_Clock := g_Clock w;
      micros_calls := S (S n);
      analogRead_calls := S (analogRead_calls w);
      m_DeviceInfoCharacteristic := m_DeviceInfoCharacteristic w;
      trace := trace w ++
        [EvMicros (micros_at hw n);
         EvAnalogRead pin reading;
         EvMicros (micros_at hw (S n))] |}).
Proof.
  cbv zeta. unfold Ak.analogRead, Ak.AK_PERF.
  erewrite MEG_PERF_run by (rewrite micros_run; reflexivity).
  cbn [snd g_PerfCounters g_Clock micros_calls analogRead_calls
       m_DeviceInfoCharacteristic trace].
  flatten_trace. reflexivity.
Qed.

Lemma Ak_PrintPerfCounterToSerial_run {R} fmt (c : PerfCounter) (w : World R) :
  Ak.PrintPerfCounterToSerial fmt c w =
  (Done tt,
   {| g_PerfCounters := g_PerfCounters w;
      g_Clock := g_Clock w;
      micros_calls := micros_calls w;
      analogRead_calls := analogRead_calls w;
      m_DeviceInfoCharacteristic := m_DeviceInfoCharacteristic w;
      trace := trace w ++ Ak.report_line fmt c |}).
Proof.
  unfold Ak.PrintPerfCounterToSerial, Ak.report_line.
  destruct (Z.leb_spec (counter c) 0) as [Hle|Hgt].
  - rewrite app_nil_r. destruct w; reflexivity.
  - unfold bind, udiv.
    destruct (Z.eqb_spec (counter c) 0); [lia | reflexivity].
Qed.

Lemma Ak_PrintAllPerfCountersToSerial_run fmt (w : World Ak.PerfCounters) :
  Ak.PrintAllPerfCountersToSerial fmt w =
  (Done tt,
   {| g_PerfCounters := g_PerfCounters w;
      g_Clock := g_Clock w;
      micros_calls := micros_calls w;
      analogRead_calls := analogRead_calls w;
      m_DeviceInfoCharacteristic := m_DeviceInfoCharacteristic w;
      trace := trace w ++
        EvSerialPrint report_heading
        :: Ak.report_line fmt (Ak.analogReadCounter (g_PerfCounters w))
        ++ Ak.report_line fmt (Ak.allReads (g_PerfCounters w)) |}).
Proof.
  destruct w as [[pa pb] c n k a tr].
  unfold Ak.PrintAllPerfCountersToSerial, Ak.PerfCounters_size.
  cbn [for_each_index g_PerfCounters g_Clock micros_calls analogRead_calls
       m_DeviceInfoCharacteristic trace Ak.analogReadCounter Ak.allReads].
  unfold bind at 1. unfold emit at 1.
  cbn [g_PerfCounters g_Clock micros_calls analogRead_calls
       m_DeviceInfoCharacteristic trace].
  unfold bind at 1. unfold bind at 1. unfold read_registry at 1.
  cbn [g_PerfCounters Ak.PerfCounters_at nth_error
       Ak.analogReadCounter Ak.allReads].
  rewrite Ak_PrintPerfCounterToSerial_run.
  cbn [g_PerfCounters g_Clock micros_calls analogRead_calls
       m_DeviceInfoCharacteristic trace].
  unfold bind at 1. unfold bind at 1. unfold read_registry at 1.
  cbn [g_PerfCounters Ak.PerfCounters_at nth_error
       Ak.analogReadCounter Ak.allReads].
  rewrite Ak_PrintPerfCounterToSerial_run.
  cbn [g_PerfCounters g_Clock micros_calls analogRead_calls
       m_DeviceInfoCharacteristic trace ret].
  flatten_trace. reflexivity.
Qed.

(** A turn of the first sketch's [loop()], from any state: it always
    completes (its report divides by the sample count only, which the
    guard has found positive); it reads [A1], [A2], [A3] in that order,
    each between two readings of the timer submitted to the [analogRead]
    counter, all between the two readings submitted to [allReads]; then it
    prints the heading and a line for each counter that has samples.
    Clock and attribute are not touched. *)
Theorem Ak_loop_in_full :
  forall (hw : Hardware) (fmt : string -> Z -> Z -> string)
         (w : World Ak.PerfCounters),
    let n := micros_calls w in
    let k := analogRead_calls w in
    let t i := micros_at hw (i + n) in
    let r1 := u16 (hw_analogRead hw k (A1 hw)) in
    let r2 := u16 (hw_analogRead hw (S k) (A2 hw)) in
    let r3 := u16 (hw_analogRead hw (S (S k)) (A3 hw)) in
    let p' := Ak.counters_after_loop hw n (g_PerfCounters w) in
    Ak.loop hw fmt w =
    (Done tt,
     {| g_PerfCounters := p';
        g_Clock := g_Clock w;
        micros_calls := 8 + n;
        analogRead_calls := 3 + k;
        m_DeviceInfoCharacteristic := m_DeviceInfoCharacteristic w;
        trace := trace w ++
          [EvMicros (t 0%nat);
           EvMicros (t 1%nat); EvAnalogRead (A1 hw) r1; EvMicros (t 2%nat);
           EvMicros (t 3%nat); EvAnalogRead (A2 hw) r2; EvMicros (t 4%nat);
           EvMicros (t 5%nat); EvAnalogRead (A3 hw) r3; EvMicros (t 6%nat);
           EvMicros (t 7%nat);
           EvSerialPrint report_heading]
          ++ Ak.report_line fmt (Ak.analogReadCounter p')
          ++ Ak.report_line fmt (Ak.allReads p') |}).
Proof.
  intros hw fmt [[pa pb] c n k a tr]. cbv zeta.
  cbn [g_PerfCounters g_Clock micros_calls analogRead_calls
       m_DeviceInfoCharacteristic trace].
  unfold Ak.loop, Ak.AK_PERF.
  erewrite bind_step.
  2:{ apply MEG_PERF_run. rewrite micros_run. cbn [snd].
      erewrite bind_step by apply Ak_analogRead_run.
      erewrite bind_step by apply Ak_analogRead_run.
      erewrite bind_step by apply Ak_analogRead_run.
      reflexivity. }
  rewrite Ak_PrintAllPerfCountersToSerial_run.
  cbn [g_PerfCounters g_Clock micros_calls analogRead_calls
       m_DeviceInfoCharacteristic trace
       Ak.through_analogRead Ak.through_allReads
       Ak.analogReadCounter Ak.allReads].
  unfold Ak.counters_after_loop.
  cbn [Ak.analogReadCounter Ak.allReads Nat.add].
  flatten_trace. reflexivity.
Qed.

(** ** esp32ble.ino, last sketch *)

Lemma GetClockValue_run {R} hw (w : World R) :
  let now := GetClockValue_on (micros_at hw (micros_calls w)) (g_Clock w) in
  GetClockValue hw w =
  (Done (fst now),
   {| g_PerfCounters := g_PerfCounters w;
      g_Clock := snd now;
      micros_calls := S (micros_calls w);
      analogRead_calls := analogRead_calls w;
      m_DeviceInfoCharacteristic := m_DeviceInfoCharacteristic w;
      trace := trace w ++ [EvMicros (micros_at hw (micros_calls w))] |}).
Proof.
  cbv zeta. unfold GetClockValue.
  rewrite (bind_step _ _ _ _ _ (micros_run hw w)).
  unfold GetClockValue_on. reflexivity.
Qed.

Lemma Esp32ble_ReadMeasurement_run hw pin (w : World Esp32ble.PerfCounters) :
  let n := micros_calls w in
  let reading := u16 (hw_analogRead hw (analogRead_calls w) (A1 hw)) in
  let now := GetClockValue_on (micros_at hw (S n)) (g_Clock w) in
  Esp32ble.ReadMeasurement hw pin w =
  (Done {| time := fst now; value := reading |},
   {| g_PerfCounters :=
        Esp32ble.through_singleMeasurement
          (fun c => SubmitPerfMeasurement c (micros_at hw n) (micros_at hw (S (S n))))
          (g_PerfCounters w);
      g_Clock := snd now;
      micros_calls := S (S (S n));
      analogRead_calls := S (analogRead_calls w);
      m_DeviceInfoCharacteristic := m_DeviceInfoCharacteristic w;
      trace := trace w ++
        [EvMicros (micros_at hw n);
         EvAnalogRead (A1 hw) reading;
         EvMicros (micros_at hw (S n));
         EvMicros (micros_at hw (S (S n)))] |}).
Proof.
  cbv zeta. unfold Esp32ble.ReadMeasurement.
  erewrite MEG_PERF_run.
  2:{ rewrite micros_run. cbn [snd].
      erewrite bind_step by reflexivity.
      unfold Esp32ble.DataMeasurement_new.
      erewrite bind_step by apply GetClockValue_run.
      reflexivity. }
  cbn [snd g_PerfCounters g_Clock micros_calls analogRead_calls
       m_DeviceInfoCharacteristic trace].
  flatten_trace. reflexivity.
Qed.

Lemma Esp32bleLoop_loop_iteration_run hw (w : World Esp32ble.PerfCounters) :
  let n := micros_calls w in
  let k := analogRead_calls w in
  let t i := micros_at hw (i + n) in
  let r i := u16 (hw_analogRead hw (i + k) (A1 hw)) in
  Esp32bleLoop.loop_iteration hw w =
  (Done tt,
   {| g_PerfCounters := Esp32bleLoop.counters_after_turn hw n (g_PerfCounters w);
      g_Clock := snd (poll_clock (clock_readings_of_turn hw n) (g_Clock w));
      micros_calls := 11 + n;
      analogRead_calls := 3 + k;
      m_DeviceInfoCharacteristic := m_DeviceInfoCharacteristic w;
      trace := trace w ++
        [EvMicros (t 0%nat);
         EvMicros (t 1%nat); EvAnalogRead (A1 hw) (r 0%nat);
         EvMicros (t 2%nat); EvMicros (t 3%nat);
         EvMicros (t 4%nat); EvAnalogRead (A1 hw) (r 1%nat);
         EvMicros (t 5%nat); EvMicros (t 6%nat);
         EvMicros (t 7%nat); EvAnalogRead (A1 hw) (r 2%nat);
         EvMicros (t 8%nat); EvMicros (t 9%nat);
         EvMicros (t 10%nat)] |}).
Proof.
  destruct w as [[pa ps] c n k a tr]. cbv zeta.
  cbn [g_PerfCounters g_Clock micros_calls analogRead_calls
       m_DeviceInfoCharacteristic trace].
  unfold Esp32bleLoop.loop_iteration.
  erewrite MEG_PERF_run.
  2:{ rewrite micros_run. cbn [snd].
      erewrite bind_step by apply Esp32ble_ReadMeasurement_run.
      erewrite bind_step by apply Esp32ble_ReadMeasurement_run.
      erewrite bind_step by apply Esp32ble_ReadMeasurement_run.
      reflexivity. }
  cbn [g_PerfCounters g_Clock micros_calls analogRead_calls
       m_DeviceInfoCharacteristic trace
       Esp32ble.through_singleMeasurement Esp32ble.through_allMeasurements
       Esp32ble.allMeasurements Esp32ble.singleMeasurement].
  unfold Esp32bleLoop.counters_after_turn, clock_readings_of_turn.
  rewrite !poll_clock_cons.
  cbn [poll_clock fst snd Nat.add
       Esp32ble.allMeasurements Esp32ble.singleMeasurement].
  flatten_trace. reflexivity.
Qed.

Lemma Esp32bleLoop_loop_iterations_S hw n :
  Esp32bleLoop.loop_iterations hw (S n) =
  bind (Esp32bleLoop.loop_iteration hw) (fun _ => Esp32bleLoop.loop_iterations hw n).
Proof. reflexivity. Qed.

(** The loop of the last sketch of esp32ble.ino, for any number of turns
    from any state: it never traps; all it does to the outside is read the
    timer (11 times a turn) and the converter on pin [A1] (3 times a
    turn); it never reads another pin and never prints, publishes or
    sleeps, so the attribute stays what the constructor made it. *)
Theorem Esp32bleLoop_only_times_reads_of_A1 :
  forall (hw : Hardware) (n : nat) (w : World Esp32ble.PerfCounters),
    let w' := snd (Esp32bleLoop.loop_iterations hw n w) in
    fst (Esp32bleLoop.loop_iterations hw n w) = Done tt
    /\ m_DeviceInfoCharacteristic w' = m_DeviceInfoCharacteristic w
    /\ micros_calls w' = (11 * n + micros_calls w)%nat
    /\ analogRead_calls w' = (3 * n + analogRead_calls w)%nat
    /\ exists events,
         trace w' = trace w ++ events
         /\ Forall (timer_or_A1 hw) events
         /\ List.length events = (14 * n)%nat.
Proof.
  intros hw n. induction n as [|n IH]; intros w; cbv zeta.
  - cbn [Esp32bleLoop.loop_iterations ret fst snd].
    repeat split. exists []. rewrite app_nil_r. repeat split. constructor.
  - rewrite Esp32bleLoop_loop_iterations_S.
    rewrite (bind_step _ _ _ _ _ (Esp32bleLoop_loop_iteration_run hw w)).
    match goal with
    | |- context [Esp32bleLoop.loop_iterations hw n ?w1] =>
        destruct (IH w1) as (Hd & Ha & Hm & Hk & events & Ht & Hall & Hlen)
    end.
    cbv zeta in Hd, Ha, Hm, Hk, Ht.
    cbn [g_PerfCounters g_Clock micros_calls analogRead_calls
         m_DeviceInfoCharacteristic trace] in Ha, Hm, Hk, Ht.
    rewrite Hd, Ha, Hm, Hk, Ht.
    split; [reflexivity|]. split; [reflexivity|].
    split; [lia|]. split; [lia|].
    eexists. split; [rewrite <- app_assoc; reflexivity|].
    split.
    + apply Forall_app. split; [|exact Hall].
      repeat constructor.
    + rewrite length_app, Hlen. cbn [List.length]. lia.
Qed.

(** ** The measurements of a turn *)

Lemma SubmitPerfMeasurement_accumulator c start end_ :
  start <= end_ ->
  0 <= accumulator c ->
  accumulator c + (end_ - start) < 2 ^ 64 ->
  accumulator (SubmitPerfMeasurement c start end_) = accumulator c + (end_ - start).
Proof.
  intros Hse Hacc Hfit. unfold SubmitPerfMeasurement. cbn [accumulator].
  rewrite (u64_small (end_ - start)) by (unfold is_u64; lia).
  apply u64_small. unfold is_u64. lia.
Qed.

(** The parts and the whole.  In a loop turn during which the timer does
    not wrap (its 11 readings up to the end of the measurement block are
    in nondecreasing order) and for which both accumulators have room,
    [allMeasurements] grows by the time from the first reading to the
    eleventh, [singleMeasurement] by the three single intervals, and the
    three single intervals together never exceed the whole. *)
Theorem single_measurements_fit_in_all_measurements :
  forall (hw : Hardware) (w : World PerfCounters),
    let n := micros_calls w in
    let t i := micros_at hw (i + n) in
    let p := g_PerfCounters w in
    let p' := g_PerfCounters (snd (loop_iteration hw w)) in
    (forall i, (i < 10)%nat -> t i <= t (S i)) ->
    0 <= accumulator (allMeasurements p) ->
    accumulator (allMeasurements p) + (t 10%nat - t 0%nat) < 2 ^ 64 ->
    0 <= accumulator (singleMeasurement p) ->
    accumulator (singleMeasurement p) + (t 10%nat - t 0%nat) < 2 ^ 64 ->
    accumulator (allMeasurements p') - accumulator (allMeasurements p)
      = t 10%nat - t 0%nat
    /\ accumulator (singleMeasurement p') - accumulator (singleMeasurement p)
      = (t 3%nat - t 1%nat) + (t 6%nat - t 4%nat) + (t 9%nat - t 7%nat)
    /\ accumulator (singleMeasurement p') - accumulator (singleMeasurement p)
      <= accumulator (allMeasurements p') - accumulator (allMeasurements p).
Proof.
  intros hw w n t p p' Hmono Ha Hafit Hs Hsfit.
  assert (H0 := Hmono 0%nat ltac:(lia)). assert (H1 := Hmono 1%nat ltac:(lia)).
  assert (H2 := Hmono 2%nat ltac:(lia)). assert (H3 := Hmono 3%nat ltac:(lia)).
  assert (H4 := Hmono 4%nat ltac:(lia)). assert (H5 := Hmono 5%nat ltac:(lia)).
  assert (H6 := Hmono 6%nat ltac:(lia)). assert (H7 := Hmono 7%nat ltac:(lia)).
  assert (H8 := Hmono 8%nat ltac:(lia)). assert (H9 := Hmono 9%nat ltac:(lia)).
  clear Hmono.
  destruct (loop_iteration_publishes hw w) as [_ Hreg]. cbv zeta in Hreg.
  subst p'. rewrite Hreg. clear Hreg.
  unfold counters_after_turn. cbn [allMeasurements singleMeasurement].
  subst t p n. cbv beta in *. cbn [Nat.add] in *.
  set (a0 := accumulator (allMeasurements (g_PerfCounters w))) in *.
  set (s0 := singleMeasurement (g_PerfCounters w)) in *.
  rewrite (SubmitPerfMeasurement_accumulator (allMeasurements (g_PerfCounters w)))
    by (fold a0; lia).
  fold a0.
  match goal with
  | |- context [SubmitPerfMeasurement s0 ?x1 ?x3] =>
      assert (E1 : accumulator (SubmitPerfMeasurement s0 x1 x3)
                   = accumulator s0 + (x3 - x1))
        by (apply SubmitPerfMeasurement_accumulator; lia)
  end.
  match goal with
  | |- context [SubmitPerfMeasurement (SubmitPerfMeasurement s0 ?x1 ?x3) ?x4 ?x6] =>
      assert (E2 : accumulator
                     (SubmitPerfMeasurement (SubmitPerfMeasurement s0 x1 x3) x4 x6)
                   = accumulator s0 + (x3 - x1) + (x6 - x4))
        by (rewrite SubmitPerfMeasurement_accumulator; rewrite ?E1; lia)
  end.
  rewrite SubmitPerfMeasurement_accumulator by (rewrite ?E2; lia).
  rewrite E2. repeat split; lia.
Qed.

Lemma single_measurements_fit_in_all_measurements_witness :
  let n := micros_calls world_at_boot in
  let t i := micros_at bench_hw (i + n) in
  let p := g_PerfCounters world_at_boot in
  let p' := g_PerfCounters (snd (loop_iteration bench_hw world_at_boot)) in
  accumulator (allMeasurements p') - accumulator (allMeasurements p)
    = t 10%nat - t 0%nat
  /\ accumulator (singleMeasurement p') - accumulator (singleMeasurement p)
    = (t 3%nat - t 1%nat) + (t 6%nat - t 4%nat) + (t 9%nat - t 7%nat)
  /\ accumulator (singleMeasurement p') - accumulator (singleMeasurement p)
    <= accumulator (allMeasurements p') - accumulator (allMeasurements p).
Proof.
  apply (single_measurements_fit_in_all_measurements bench_hw world_at_boot).
  - intros i Hi.
    do 10 (destruct i as [|i]; [vm_compute; discriminate|]).
    lia.
  - simpl. lia.
  - vm_compute. reflexivity.
  - simpl. lia.
  - vm_compute. reflexivity.
Defined.

Lemma take_measurements_run hw (w : World PerfCounters) :
  let n := micros_calls w in
  let k := analogRead_calls w in
  let c0 := g_Clock w in
  let now1 := GetClockValue_on (micros_at hw (2 + n)) c0 in
  let now2 := GetClockValue_on (micros_at hw (5 + n)) (snd now1) in
  let now3 := GetClockValue_on (micros_at hw (8 + n)) (snd now2) in
  fst (take_measurements hw w) =
  Done ({| time := fst now1; value := u16 (hw_analogRead hw k (A1 hw)) |},
        {| time := fst now2; value := u16 (hw_analogRead hw (S k) (A2 hw)) |},
        {| time := fst now3; value := u16 (hw_analogRead hw (S (S k)) (A3 hw)) |}).
Proof.
  cbv zeta. unfold take_measurements.
  erewrite MEG_PERF_run.
  2:{ rewrite micros_run. cbn [snd].
      erewrite bind_step by apply ReadMeasurement_run.
      erewrite bind_step by apply ReadMeasurement_run.
      erewrite bind_step by apply ReadMeasurement_run.
      reflexivity. }
  reflexivity.
Qed.

(** What the sampler hands over in a turn.  The three measurements carry
    the converter's readings of [A1], [A2], [A3], in that order, and the
    three values the clock returned for them; while the clock's
    accumulator has room, no stamp is earlier than the one before it nor
    than the clock's value before the turn. *)
Theorem take_measurements_values_and_stamps :
  forall (hw : Hardware) (w : World PerfCounters),
    0 <= g_ClockAccumulator (g_Clock w) ->
    accumulator_in_range (clock_readings_of_turn hw (micros_calls w)) (g_Clock w) ->
    exists m1 m2 m3,
      fst (take_measurements hw w) = Done (m1, m2, m3)
      /\ value m1 = u16 (hw_analogRead hw (analogRead_calls w) (A1 hw))
      /\ value m2 = u16 (hw_analogRead hw (S (analogRead_calls w)) (A2 hw))
      /\ value m3 = u16 (hw_analogRead hw (S (S (analogRead_calls w))) (A3 hw))
      /\ [time m1; time m2; time m3]
         = fst (poll_clock (clock_readings_of_turn hw (micros_calls w)) (g_Clock w))
      /\ g_ClockAccumulator (g_Clock w) <= time m1
      /\ time m1 <= time m2
      /\ time m2 <= time m3.
Proof.
  intros hw w Hacc Hfit.
  pose proof (take_measurements_run hw w) as Hrun. cbv zeta in Hrun.
  pose proof (poll_clock_sorted _ _ Hacc Hfit) as Hsorted.
  unfold clock_readings_of_turn in *.
  rewrite !poll_clock_cons in Hsorted. cbn [poll_clock fst snd] in Hsorted.
  do 3 eexists. split; [exact Hrun|].
  cbn [value time].
  split; [reflexivity|]. split; [reflexivity|]. split; [reflexivity|].
  split.
  { rewrite !poll_clock_cons. reflexivity. }
  inversion Hsorted as [|x l Hs1 Hh1]; subst.
  inversion Hs1 as [|x l Hs2 Hh2]; subst.
  inversion Hs2 as [|x l Hs3 Hh3]; subst.
  inversion Hh1; subst. inversion Hh2; subst. inversion Hh3; subst.
  repeat split; assumption.
Qed.

Lemma take_measurements_values_and_stamps_witness :
  exists m1 m2 m3,
    fst (take_measurements bench_hw world_at_boot) = Done (m1, m2, m3)
    /\ value m1 = u16 (hw_analogRead bench_hw (analogRead_calls world_at_boot) (A1 bench_hw))
    /\ value m2 = u16 (hw_analogRead bench_hw (S (analogRead_calls world_at_boot)) (A2 bench_hw))
    /\ value m3 = u16 (hw_analogRead bench_hw (S (S (analogRead_calls world_at_boot))) (A3 bench_hw))
    /\ [time m1; time m2; time m3]
       = fst (poll_clock (clock_readings_of_turn bench_hw (micros_calls world_at_boot))
                         (g_Clock world_at_boot))
    /\ g_ClockAccumulator (g_Clock world_at_boot) <= time m1
    /\ time m1 <= time m2
    /\ time m2 <= time m3.
Proof.
  apply (take_measurements_values_and_stamps bench_hw world_at_boot).
  - simpl. lia.
  - vm_compute. repeat split.
Defined.
